(** * Algorithmic Impact Assessment: record, scoring engine and role permissions

    A shallow embedding of [aia_core.py] (the [AlgorithmicImpactAssessment]
    class) and of the role table of [auth_manager.py], with the properties
    of the scoring engine, of the mutating methods and of the permission
    check stated over it; then of the user store of [auth_manager.py] and
    of [update_aia] of [db_manager.py], with further properties of the code.

    Python values are typed as the methods use them: text is [string], a
    dict with string keys is a [gmap string _], a list is a [list].  The
    clock ([datetime.datetime.now().isoformat()]) and the identifier source
    ([str(uuid.uuid4())]) are read by the methods; here each call takes the
    value it reads as an argument. *)

From Stdlib Require Import ZArith Lia.
From stdpp Require Import base option list gmap strings fin_maps pretty.

Local Open Scope string_scope.
Local Open Scope Z_scope.
Local Open Scope list_scope.

(** ** Constants of [aia_core.py] *)

Definition AIA_VERSION : string := "1.1".

Definition DIMENSIONS : list string :=
  [ "Human Impact";
    "Contestability and Redress";
    "Explainability and Interpretability";
    "Bias and Fairness";
    "Privacy Risk";
    "Data Representativeness";
    "Autonomy and Oversight";
    "Accountability and Auditability";
    "Security and Resilience";
    "Monitoring and Drift";
    "Ethical Considerations";
    "Legal Compliance";
    "Robustness and Reliability" ].

(** One row of [RISK_CATEGORIES]: [{"range": (lo, hi), "category": _, "action": _}]. *)
Record category_info := CategoryInfo {
  range_min : Z;
  range_max : Z;
  ci_category : string;
  ci_action : string
}.

Definition ACTION_LOW : string :=
  "Standard deployment procedures. Routine monitoring. Document AIA. Approval typically by Project/System Owner.".
Definition ACTION_MEDIUM : string :=
  "Requires documented Mitigation Plan (Section 9). Enhanced monitoring procedures. Requires review/endorsement by [Specify Role, e.g., AI Governance Committee or relevant Senior Manager]. Approval potentially involves Accountable AI Official oversight.".
Definition ACTION_HIGH : string :=
  "Requires comprehensive Mitigation Plan with clear timelines and owners. Strict oversight and monitoring. Requires formal approval from [Specify Senior Role, e.g., Designated Accountable AI Official, SES Band 1/2]. Limitations on use may be needed.".
Definition ACTION_SEVERE : string :=
  "Requires robust Mitigation Plan addressing all significant risks. Requires highest level approval [Specify Executive Role, e.g., Agency Head / Deputy Secretary / Designated Senior Accountable AI Official]. Deployment may be contingent on significant redesign, specific limitations, independent review, or may be prohibited if risks cannot be adequately mitigated.".

Definition RISK_CATEGORIES : list category_info :=
  [ CategoryInfo 0 10 "Low" ACTION_LOW;
    CategoryInfo 11 25 "Medium" ACTION_MEDIUM;
    CategoryInfo 26 40 "High" ACTION_HIGH;
    CategoryInfo 41 65 "Severe" ACTION_SEVERE ].

(** The value of [self.risk_category]: [{"category": _, "action": _}]. *)
Record risk := Risk {
  category : string;
  action : string
}.

(** The loop of [_determine_risk_category]: the first row whose inclusive
    range holds the score wins; when no row does, the fallback after the
    loop. *)
Fixpoint classify_in (table : list category_info) (score : Z) : risk :=
  match table with
  | [] => Risk "Undefined" "Score out of expected range."
  | info :: rest =>
      if (range_min info <=? score) && (score <=? range_max info)
      then Risk (ci_category info) (ci_action info)
      else classify_in rest score
  end.

Definition classifyRisk (score : Z) : risk := classify_in RISK_CATEGORIES score.


(** ** The assessment object *)

(** A value of [self.dimensions]: [{"score": _, "justification": _}]. *)
Record dim_entry := DimEntry {
  score : Z;
  justification : string
}.

(** [entry["score"] = v] and [entry["justification"] = v]. *)
Definition set_score (v : Z) (entry : dim_entry) : dim_entry :=
  DimEntry v (justification entry).
Definition set_justification (v : string) (entry : dim_entry) : dim_entry :=
  DimEntry (score entry) v.

(** [self.approvals]: a dict with the three fixed keys ['assessor'],
    ['reviewer'] and ['approver'], each holding a dict of text fields. *)
Record approval_slots := ApprovalSlots {
  assessor : gmap string string;
  reviewer : gmap string string;
  approver : gmap string string
}.

(** The attributes of an [AlgorithmicImpactAssessment] instance, in the
    order [__init__] assigns them.  A mitigation item is a dict from field
    name to text. *)
Record AIA := mkAIA {
  aia_version : string;
  assessment_date : string;
  assessed_by : list string;
  referenced_frameworks : string;
  system_name : string;
  agency_name : string;
  system_purpose : string;
  technical_specs : gmap string string;
  data_details : gmap string string;
  deployment_context : gmap string string;
  procurement : gmap string string;
  related_assessments : gmap string string;
  dimensions : gmap string dim_entry;
  total_score : Z;
  risk_category : risk;
  mitigation_plan : list (gmap string string);
  approvals : approval_slots;
  ai_inventory_ref : string;
  transparency_statement_link : string;
  monitoring_plan_ref : string;
  review_frequency : string;
  next_review_date : string;
  system_id : option Z;
  aia_status : string;
  related_assessment_statuses : gmap string string;
  creation_date : string;
  last_modified_date : string
}.

(** *** Attribute assignment, [self.<attribute> = v]

    One function for each attribute that a method assigns; [aia_version],
    [system_id] and [creation_date] are assigned by no method. *)

Definition with_assessment_date (v : string) (self : AIA) : AIA :=
  mkAIA (aia_version self) v (assessed_by self) (referenced_frameworks self) (system_name self)
    (agency_name self) (system_purpose self) (technical_specs self) (data_details self)
    (deployment_context self) (procurement self) (related_assessments self) (dimensions self)
    (total_score self) (risk_category self) (mitigation_plan self) (approvals self)
    (ai_inventory_ref self) (transparency_statement_link self) (monitoring_plan_ref self)
    (review_frequency self) (next_review_date self) (system_id self) (aia_status self)
    (related_assessment_statuses self) (creation_date self) (last_modified_date self).

Definition with_assessed_by (v : list string) (self : AIA) : AIA :=
  mkAIA (aia_version self) (assessment_date self) v (referenced_frameworks self)
    (system_name self) (agency_name self) (system_purpose self) (technical_specs self)
    (data_details self) (deployment_context self) (procurement self) (related_assessments self)
    (dimensions self) (total_score self) (risk_category self) (mitigation_plan self)
    (approvals self) (ai_inventory_ref self) (transparency_statement_link self)
    (monitoring_plan_ref self) (review_frequency self) (next_review_date self) (system_id self)
    (aia_status self) (related_assessment_statuses self) (creation_date self)
    (last_modified_date self).

Definition with_referenced_frameworks (v : string) (self : AIA) : AIA :=
  mkAIA (aia_version self) (assessment_date self) (assessed_by self) v (system_name self)
    (agency_name self) (system_purpose self) (technical_specs self) (data_details self)
    (deployment_context self) (procurement self) (related_assessments self) (dimensions self)
    (total_score self) (risk_category self) (mitigation_plan self) (approvals self)
    (ai_inventory_ref self) (transparency_statement_link self) (monitoring_plan_ref self)
    (review_frequency self) (next_review_date self) (system_id self) (aia_status self)
    (related_assessment_statuses self) (creation_date self) (last_modified_date self).

Definition with_system_name (v : string) (self : AIA) : AIA :=
  mkAIA (aia_version self) (assessment_date self) (assessed_by self)
    (referenced_frameworks self) v (agency_name self) (system_purpose self)
    (technical_specs self) (data_details self) (deployment_context self) (procurement self)
    (related_assessments self) (dimensions self) (total_score self) (risk_category self)
    (mitigation_plan self) (approvals self) (ai_inventory_ref self)
    (transparency_statement_link self) (monitoring_plan_ref self) (review_frequency self)
    (next_review_date self) (system_id self) (aia_status self)
    (related_assessment_statuses self) (creation_date self) (last_modified_date self).

Definition with_agency_name (v : string) (self : AIA) : AIA :=
  mkAIA (aia_version self) (assessment_date self) (assessed_by self)
    (referenced_frameworks self) (system_name self) v (system_purpose self)
    (technical_specs self) (data_details self) (deployment_context self) (procurement self)
    (related_assessments self) (dimensions self) (total_score self) (risk_category self)
    (mitigation_plan self) (approvals self) (ai_inventory_ref self)
    (transparency_statement_link self) (monitoring_plan_ref self) (review_frequency self)
    (next_review_date self) (system_id self) (aia_status self)
    (related_assessment_statuses self) (creation_date self) (last_modified_date self).

Definition with_system_purpose (v : string) (self : AIA) : AIA :=
  mkAIA (aia_version self) (assessment_date self) (assessed_by self)
    (referenced_frameworks self) (system_name self) (agency_name self) v (technical_specs self)
    (data_details self) (deployment_context self) (procurement self) (related_assessments self)
    (dimensions self) (total_score self) (risk_category self) (mitigation_plan self)
    (approvals self) (ai_inventory_ref self) (transparency_statement_link self)
    (monitoring_plan_ref self) (review_frequency self) (next_review_date self) (system_id self)
    (aia_status self) (related_assessment_statuses self) (creation_date self)
    (last_modified_date self).

Definition with_technical_specs (v : gmap string string) (self : AIA) : AIA :=
  mkAIA (aia_version self) (assessment_date self) (assessed_by self)
    (referenced_frameworks self) (system_name self) (agency_name self) (system_purpose self) v
    (data_details self) (deployment_context self) (procurement self) (related_assessments self)
    (dimensions self) (total_score self) (risk_category self) (mitigation_plan self)
    (approvals self) (ai_inventory_ref self) (transparency_statement_link self)
    (monitoring_plan_ref self) (review_frequency self) (next_review_date self) (system_id self)
    (aia_status self) (related_assessment_statuses self) (creation_date self)
    (last_modified_date self).

Definition with_data_details (v : gmap string string) (self : AIA) : AIA :=
  mkAIA (aia_version self) (assessment_date self) (assessed_by self)
    (referenced_frameworks self) (system_name self) (agency_name self) (system_purpose self)
    (technical_specs self) v (deployment_context self) (procurement self)
    (related_assessments self) (dimensions self) (total_score self) (risk_category self)
    (mitigation_plan self) (approvals self) (ai_inventory_ref self)
    (transparency_statement_link self) (monitoring_plan_ref self) (review_frequency self)
    (next_review_date self) (system_id self) (aia_status self)
    (related_assessment_statuses self) (creation_date self) (last_modified_date self).

Definition with_deployment_context (v : gmap string string) (self : AIA) : AIA :=
  mkAIA (aia_version self) (assessment_date self) (assessed_by self)
    (referenced_frameworks self) (system_name self) (agency_name self) (system_purpose self)
    (technical_specs self) (data_details self) v (procurement self) (related_assessments self)
    (dimensions self) (total_score self) (risk_category self) (mitigation_plan self)
    (approvals self) (ai_inventory_ref self) (transparency_statement_link self)
    (monitoring_plan_ref self) (review_frequency self) (next_review_date self) (system_id self)
    (aia_status self) (related_assessment_statuses self) (creation_date self)
    (last_modified_date self).

Definition with_procurement (v : gmap string string) (self : AIA) : AIA :=
  mkAIA (aia_version self) (assessment_date self) (assessed_by self)
    (referenced_frameworks self) (system_name self) (agency_name self) (system_purpose self)
    (technical_specs self) (data_details self) (deployment_context self) v
    (related_assessments self) (dimensions self) (total_score self) (risk_category self)
    (mitigation_plan self) (approvals self) (ai_inventory_ref self)
    (transparency_statement_link self) (monitoring_plan_ref self) (review_frequency self)
    (next_review_date self) (system_id self) (aia_status self)
    (related_assessment_statuses self) (creation_date self) (last_modified_date self).

Definition with_related_assessments (v : gmap string string) (self : AIA) : AIA :=
  mkAIA (aia_version self) (assessment_date self) (assessed_by self)
    (referenced_frameworks self) (system_name self) (agency_name self) (system_purpose self)
    (technical_specs self) (data_details self) (deployment_context self) (procurement self) v
    (dimensions self) (total_score self) (risk_category self) (mitigation_plan self)
    (approvals self) (ai_inventory_ref self) (transparency_statement_link self)
    (monitoring_plan_ref self) (review_frequency self) (next_review_date self) (system_id self)
    (aia_status self) (related_assessment_statuses self) (creation_date self)
    (last_modified_date self).

Definition with_dimensions (v : gmap string dim_entry) (self : AIA) : AIA :=
  mkAIA (aia_version self) (assessment_date self) (assessed_by self)
    (referenced_frameworks self) (system_name self) (agency_name self) (system_purpose self)
    (technical_specs self) (data_details self) (deployment_context self) (procurement self)
    (related_assessments self) v (total_score self) (risk_category self) (mitigation_plan self)
    (approvals self) (ai_inventory_ref self) (transparency_statement_link self)
    (monitoring_plan_ref self) (review_frequency self) (next_review_date self) (system_id self)
    (aia_status self) (related_assessment_statuses self) (creation_date self)
    (last_modified_date self).

Definition with_total_score (v : Z) (self : AIA) : AIA :=
  mkAIA (aia_version self) (assessment_date self) (assessed_by self)
    (referenced_frameworks self) (system_name self) (agency_name self) (system_purpose self)
    (technical_specs self) (data_details self) (deployment_context self) (procurement self)
    (related_assessments self) (dimensions self) v (risk_category self) (mitigation_plan self)
    (approvals self) (ai_inventory_ref self) (transparency_statement_link self)
    (monitoring_plan_ref self) (review_frequency self) (next_review_date self) (system_id self)
    (aia_status self) (related_assessment_statuses self) (creation_date self)
    (last_modified_date self).

Definition with_risk_category (v : risk) (self : AIA) : AIA :=
  mkAIA (aia_version self) (assessment_date self) (assessed_by self)
    (referenced_frameworks self) (system_name self) (agency_name self) (system_purpose self)
    (technical_specs self) (data_details self) (deployment_context self) (procurement self)
    (related_assessments self) (dimensions self) (total_score self) v (mitigation_plan self)
    (approvals self) (ai_inventory_ref self) (transparency_statement_link self)
    (monitoring_plan_ref self) (review_frequency self) (next_review_date self) (system_id self)
    (aia_status self) (related_assessment_statuses self) (creation_date self)
    (last_modified_date self).

Definition with_mitigation_plan (v : list (gmap string string)) (self : AIA) : AIA :=
  mkAIA (aia_version self) (assessment_date self) (assessed_by self)
    (referenced_frameworks self) (system_name self) (agency_name self) (system_purpose self)
    (technical_specs self) (data_details self) (deployment_context self) (procurement self)
    (related_assessments self) (dimensions self) (total_score self) (risk_category self) v
    (approvals self) (ai_inventory_ref self) (transparency_statement_link self)
    (monitoring_plan_ref self) (review_frequency self) (next_review_date self) (system_id self)
    (aia_status self) (related_assessment_statuses self) (creation_date self)
    (last_modified_date self).

Definition with_approvals (v : approval_slots) (self : AIA) : AIA :=
  mkAIA (aia_version self) (assessment_date self) (assessed_by self)
    (referenced_frameworks self) (system_name self) (agency_name self) (system_purpose self)
    (technical_specs self) (data_details self) (deployment_context self) (procurement self)
    (related_assessments self) (dimensions self) (total_score self) (risk_category self)
    (mitigation_plan self) v (ai_inventory_ref self) (transparency_statement_link self)
    (monitoring_plan_ref self) (review_frequency self) (next_review_date self) (system_id self)
    (aia_status self) (related_assessment_statuses self) (creation_date self)
    (last_modified_date self).

Definition with_ai_inventory_ref (v : string) (self : AIA) : AIA :=
  mkAIA (aia_version self) (assessment_date self) (assessed_by self)
    (referenced_frameworks self) (system_name self) (agency_name self) (system_purpose self)
    (technical_specs self) (data_details self) (deployment_context self) (procurement self)
    (related_assessments self) (dimensions self) (total_score self) (risk_category self)
    (mitigation_plan self) (approvals self) v (transparency_statement_link self)
    (monitoring_plan_ref self) (review_frequency self) (next_review_date self) (system_id self)
    (aia_status self) (related_assessment_statuses self) (creation_date self)
    (last_modified_date self).

Definition with_transparency_statement_link (v : string) (self : AIA) : AIA :=
  mkAIA (aia_version self) (assessment_date self) (assessed_by self)
    (referenced_frameworks self) (system_name self) (agency_name self) (system_purpose self)
    (technical_specs self) (data_details self) (deployment_context self) (procurement self)
    (related_assessments self) (dimensions self) (total_score self) (risk_category self)
    (mitigation_plan self) (approvals self) (ai_inventory_ref self) v (monitoring_plan_ref self)
    (review_frequency self) (next_review_date self) (system_id self) (aia_status self)
    (related_assessment_statuses self) (creation_date self) (last_modified_date self).

Definition with_monitoring_plan_ref (v : string) (self : AIA) : AIA :=
  mkAIA (aia_version self) (assessment_date self) (assessed_by self)
    (referenced_frameworks self) (system_name self) (agency_name self) (system_purpose self)
    (technical_specs self) (data_details self) (deployment_context self) (procurement self)
    (related_assessments self) (dimensions self) (total_score self) (risk_category self)
    (mitigation_plan self) (approvals self) (ai_inventory_ref self)
    (transparency_statement_link self) v (review_frequency self) (next_review_date self)
    (system_id self) (aia_status self) (related_assessment_statuses self) (creation_date self)
    (last_modified_date self).

Definition with_review_frequency (v : string) (self : AIA) : AIA :=
  mkAIA (aia_version self) (assessment_date self) (assessed_by self)
    (referenced_frameworks self) (system_name self) (agency_name self) (system_purpose self)
    (technical_specs self) (data_details self) (deployment_context self) (procurement self)
    (related_assessments self) (dimensions self) (total_score self) (risk_category self)
    (mitigation_plan self) (approvals self) (ai_inventory_ref self)
    (transparency_statement_link self) (monitoring_plan_ref self) v (next_review_date self)
    (system_id self) (aia_status self) (related_assessment_statuses self) (creation_date self)
    (last_modified_date self).

Definition with_next_review_date (v : string) (self : AIA) : AIA :=
  mkAIA (aia_version self) (assessment_date self) (assessed_by self)
    (referenced_frameworks self) (system_name self) (agency_name self) (system_purpose self)
    (technical_specs self) (data_details self) (deployment_context self) (procurement self)
    (related_assessments self) (dimensions self) (total_score self) (risk_category self)
    (mitigation_plan self) (approvals self) (ai_inventory_ref self)
    (transparency_statement_link self) (monitoring_plan_ref self) (review_frequency self) v
    (system_id self) (aia_status self) (related_assessment_statuses self) (creation_date self)
    (last_modified_date self).

Definition with_aia_status (v : string) (self : AIA) : AIA :=
  mkAIA (aia_version self) (assessment_date self) (assessed_by self)
    (referenced_frameworks self) (system_name self) (agency_name self) (system_purpose self)
    (technical_specs self) (data_details self) (deployment_context self) (procurement self)
    (related_assessments self) (dimensions self) (total_score self) (risk_category self)
    (mitigation_plan self) (approvals self) (ai_inventory_ref self)
    (transparency_statement_link self) (monitoring_plan_ref self) (review_frequency self)
    (next_review_date self) (system_id self) v (related_assessment_statuses self)
    (creation_date self) (last_modified_date self).

Definition with_related_assessment_statuses (v : gmap string string) (self : AIA) : AIA :=
  mkAIA (aia_version self) (assessment_date self) (assessed_by self)
    (referenced_frameworks self) (system_name self) (agency_name self) (system_purpose self)
    (technical_specs self) (data_details self) (deployment_context self) (procurement self)
    (related_assessments self) (dimensions self) (total_score self) (risk_category self)
    (mitigation_plan self) (approvals self) (ai_inventory_ref self)
    (transparency_statement_link self) (monitoring_plan_ref self) (review_frequency self)
    (next_review_date self) (system_id self) (aia_status self) v (creation_date self)
    (last_modified_date self).

Definition with_last_modified_date (v : string) (self : AIA) : AIA :=
  mkAIA (aia_version self) (assessment_date self) (assessed_by self)
    (referenced_frameworks self) (system_name self) (agency_name self) (system_purpose self)
    (technical_specs self) (data_details self) (deployment_context self) (procurement self)
    (related_assessments self) (dimensions self) (total_score self) (risk_category self)
    (mitigation_plan self) (approvals self) (ai_inventory_ref self)
    (transparency_statement_link self) (monitoring_plan_ref self) (review_frequency self)
    (next_review_date self) (system_id self) (aia_status self)
    (related_assessment_statuses self) (creation_date self) v.

(** *** Python values at the dynamically typed arguments *)

(** What a caller may pass as [score]. *)
Inductive pyval :=
| PyNone
| PyBool (b : bool)
| PyInt (z : Z)
| PyStr (s : string).

(** [isinstance(v, int)], with the integer the value stands for: [bool] is a
    subclass of [int] in Python, [True] comparing and adding as 1 and
    [False] as 0. *)
Definition as_int (v : pyval) : option Z :=
  match v with
  | PyInt z => Some z
  | PyBool b => Some (if b then 1 else 0)
  | PyNone | PyStr _ => None
  end.

(** A text argument that may also be [None]. *)
Inductive str_or_none :=
| NoneValue
| Str (s : string).

(** Truth value of such an argument: [None] and the empty string are false. *)
Definition truthy (v : str_or_none) : bool :=
  match v with
  | NoneValue => false
  | Str s => bool_decide (s ≠ "")
  end.

(** [assessed_by] of [set_metadata]: a list, or a single assessor. *)
Inductive assessed_by_arg :=
| AssessorList (l : list string)
| AssessorSingle (s : string).

(** [repr] of a list of plain strings, as an f-string prints it. *)
Definition repr_list (l : list string) : string :=
  "[" +:+ String.concat ", " ((λ s, "'" +:+ s +:+ "'") <$> l) +:+ "]".

(** *** Methods: state, exceptions and standard output *)

Inductive exn :=
| ValueError (msg : string)
| KeyError (key : string).

(** The result of a call on [self]: the value returned or the exception
    raised, the object as the call leaves it (also when it raises), and the
    lines printed. *)
Record result (A : Type) := Result {
  outcome : exn + A;
  self_after : AIA;
  stdout : list string
}.
Arguments Result {A}.
Arguments outcome {A}.
Arguments self_after {A}.
Arguments stdout {A}.

Definition method (A : Type) : Type := AIA → result A.

#[export] Instance method_ret : MRet method := λ A x self, Result (inr x) self [].

#[export] Instance method_bind : MBind method := λ A B k m self,
  match m self with
  | Result (inl e) self' out => Result (inl e) self' out
  | Result (inr x) self' out =>
      match k x self' with
      | Result o self'' out' => Result o self'' (out ++ out')
      end
  end.

Definition get_self : method AIA := λ self, Result (inr self) self [].
Definition assign (f : AIA → AIA) : method unit := λ self, Result (inr tt) (f self) [].
Definition raise {A} (e : exn) : method A := λ self, Result (inl e) self [].
Definition print (line : string) : method unit := λ self, Result (inr tt) self [line].
Definition lift {A} (x : exn + A) : method A := λ self, Result x self [].

(** [d[key]] on a dict. *)
Definition getitem {V} (d : gmap string V) (key : string) : exn + V :=
  match d !! key with
  | Some v => inr v
  | None => inl (KeyError key)
  end.

(** [__init__]: [today] is [datetime.date.today().isoformat()];
    [now_created] and [now_modified] are the two successive readings of
    [datetime.datetime.now().isoformat()]. *)
Definition __init__ (system_name agency_name : option string)
    (today now_created now_modified : string) : AIA :=
  let system_name := default "[System Name]" system_name in
  let agency_name := default "[Agency Name]" agency_name in
  {| aia_version := AIA_VERSION;
     assessment_date := today;
     assessed_by := [];
     referenced_frameworks := "";
     system_name := system_name;
     agency_name := agency_name;
     system_purpose := "";
     technical_specs :=
       list_to_map [("model_type", ""); ("algorithms", ""); ("language_libs", ""); ("hardware_infra", "")];
     data_details :=
       list_to_map [("sources", ""); ("volume_velocity", ""); ("types", ""); ("retention_policy", "")];
     deployment_context :=
       list_to_map [("operational_env", ""); ("target_users_affected", ""); ("decision_authority", "")];
     procurement := list_to_map [("method", ""); ("ethical_reqs", "")];
     related_assessments :=
       list_to_map [("pia_status_desc", ""); ("pia_ref", ""); ("other_assessments", "")];
     dimensions := list_to_map ((λ dim, (dim, DimEntry 0 "")) <$> DIMENSIONS);
     total_score := 0;
     risk_category :=
       Risk "Low" (from_option ci_action "" (RISK_CATEGORIES !! 0%nat));
     mitigation_plan := [];
     approvals :=
       {| assessor := list_to_map [("name", ""); ("role", ""); ("date", "")];
          reviewer := list_to_map [("name", ""); ("role", ""); ("comments", ""); ("date", "")];
          approver :=
            list_to_map [("name", ""); ("role", ""); ("decision", ""); ("conditions", ""); ("date", "")] |};
     ai_inventory_ref := "";
     transparency_statement_link := "";
     monitoring_plan_ref := "";
     review_frequency := "";
     next_review_date := "";
     system_id := None;
     aia_status := "Draft";
     related_assessment_statuses :=
       list_to_map [("PIA", "Not Started"); ("Security Assessment", "Not Started");
                    ("Human Rights Assessment", "Not Started")];
     creation_date := now_created;
     last_modified_date := now_modified |}.

(** **** Calculation methods *)

(** [sum(dim["score"] for dim in self.dimensions.values())]: the running sum
    from 0 over the values of the dict.  (Python visits them in insertion
    order, [map_to_list] in its own; [computeTotal_canonical] below shows
    that the sum is the one over [DIMENSIONS] either way.) *)
Definition computeTotal (dims : gmap string dim_entry) : Z :=
  foldl (λ acc dim, acc + score dim) 0 (map_to_list dims).*2.

Definition _calculate_total_score : method Z :=
  self ← get_self;
  assign (with_total_score (computeTotal (dimensions self)));;
  self ← get_self;
  mret (total_score self).

Definition _determine_risk_category : method risk :=
  self ← get_self;
  let score := total_score self in
  assign (with_risk_category (classifyRisk score));;
  self ← get_self;
  mret (risk_category self).

Definition _update_risk_assessment : method unit :=
  _calculate_total_score;;
  _determine_risk_category;;
  mret tt.

(** **** Methods for setting data

    An argument with a default value is an [option]: [None] when the caller
    leaves it out, so that the default applies; an argument whose name is
    also an attribute is primed.  [now] is the reading of
    [datetime.datetime.now().isoformat()] the call takes. *)

Definition set_metadata (assessed_by' : assessed_by_arg)
    (referenced_frameworks' : option string) (assessment_date' : option str_or_none)
    (now : string) : method unit :=
  let referenced_frameworks' := default "" referenced_frameworks' in
  let assessment_date' := default NoneValue assessment_date' in
  match assessed_by' with
  | AssessorList l => assign (with_assessed_by l)
  | AssessorSingle a => assign (with_assessed_by [a])
  end;;
  assign (with_referenced_frameworks referenced_frameworks');;
  match assessment_date' with
  | Str d => if truthy (Str d) then assign (with_assessment_date d) else mret tt
  | NoneValue => mret tt
  end;;
  assign (with_last_modified_date now).

(** [d.update(other)]: the keys of [other] are written over [d]. *)
Definition dict_update {V} (d other : gmap string V) : gmap string V := other ∪ d.

Definition set_system_details (system_name' agency_name' purpose : option string)
    (tech_specs data_details' deployment_context' procurement' related_assessments' :
       option (gmap string string))
    (now : string) : method unit :=
  let system_name' := default "" system_name' in
  let agency_name' := default "" agency_name' in
  let purpose := default "" purpose in
  let tech_specs := default ∅ tech_specs in
  let data_details' := default ∅ data_details' in
  let deployment_context' := default ∅ deployment_context' in
  let procurement' := default ∅ procurement' in
  let related_assessments' := default ∅ related_assessments' in
  (if truthy (Str system_name') then assign (with_system_name system_name') else mret tt);;
  (if truthy (Str agency_name') then assign (with_agency_name agency_name') else mret tt);;
  self ← get_self;
  assign (with_system_purpose (if truthy (Str purpose) then purpose else system_purpose self));;
  self ← get_self;
  assign (with_technical_specs (dict_update (technical_specs self) tech_specs));;
  self ← get_self;
  assign (with_data_details (dict_update (data_details self) data_details'));;
  self ← get_self;
  assign (with_deployment_context (dict_update (deployment_context self) deployment_context'));;
  self ← get_self;
  assign (with_procurement (dict_update (procurement self) procurement'));;
  match related_assessments' !! "pia_ref" with
  | Some v =>
      self ← get_self;
      assign (with_related_assessments (<["pia_ref" := v]> (related_assessments self)))
  | None => mret tt
  end;;
  match related_assessments' !! "other_assessments" with
  | Some v =>
      self ← get_self;
      assign (with_related_assessments (<["other_assessments" := v]> (related_assessments self)))
  | None => mret tt
  end;;
  assign (with_last_modified_date now).

(** The score is kept as the integer it stands for ([True] as 1). *)
Definition set_dimension_score (dimension_name : string) (score' : pyval)
    (justification' : option string) (now : string) : method unit :=
  let justification' := default "" justification' in
  self ← get_self;
  if bool_decide (dimension_name ∉ dom (dimensions self))
  then raise (ValueError ("Invalid dimension name: " +:+ dimension_name))
  else
    match as_int score' with
    | None =>
        raise (ValueError ("Score for " +:+ dimension_name +:+ " must be an integer between 0 and 5."))
    | Some n =>
        if negb ((0 <=? n) && (n <=? 5))
        then raise (ValueError ("Score for " +:+ dimension_name +:+ " must be an integer between 0 and 5."))
        else
          self ← get_self;
          assign (with_dimensions (alter (set_score n) dimension_name (dimensions self)));;
          self ← get_self;
          assign (with_dimensions (alter (set_justification justification') dimension_name (dimensions self)));;
          _update_risk_assessment;;
          assign (with_last_modified_date now)
    end.

(** **** Methods for the mitigation plan *)

(** [uuid] is the value of [str(uuid.uuid4())] the call draws. *)
Definition add_mitigation_item (dimension risk_score_desc action' responsible target_date : string)
    (status : option string) (uuid now : string) : method string :=
  let status := default "Planned" status in
  let item : gmap string string :=
    list_to_map [("id", uuid); ("dimension", dimension); ("risk_score_desc", risk_score_desc);
                 ("action", action'); ("responsible", responsible);
                 ("target_date", target_date); ("status", status)] in
  self ← get_self;
  assign (with_mitigation_plan (mitigation_plan self ++ [item]));;
  assign (with_last_modified_date now);;
  lift (getitem item "id").

(** The loop of [update_mitigation_item]: the first item whose ['id'] is
    [item_id] is updated in place and the loop breaks; the result is
    [found] and the plan as the loop leaves it. *)
Fixpoint update_loop (item_id : string) (updates : gmap string string)
    (plan : list (gmap string string)) : exn + (bool * list (gmap string string)) :=
  match plan with
  | [] => inr (false, [])
  | item :: rest =>
      match getitem item "id" with
      | inl e => inl e
      | inr i =>
          if bool_decide (i = item_id)
          then inr (true, dict_update item updates :: rest)
          else
            match update_loop item_id updates rest with
            | inl e => inl e
            | inr (found, rest') => inr (found, item :: rest')
            end
      end
  end.

Definition update_mitigation_item (item_id : string) (updates : gmap string string)
    (now : string) : method bool :=
  self ← get_self;
  '(found, plan) ← lift (update_loop item_id updates (mitigation_plan self));
  assign (with_mitigation_plan plan);;
  if negb found
  then raise (ValueError ("Mitigation item with ID " +:+ item_id +:+ " not found."))
  else
    assign (with_last_modified_date now);;
    mret true.

(** [[item for item in plan if item['id'] != item_id]]. *)
Fixpoint items_without (item_id : string) (plan : list (gmap string string)) :
    exn + list (gmap string string) :=
  match plan with
  | [] => inr []
  | item :: rest =>
      match getitem item "id" with
      | inl e => inl e
      | inr i =>
          match items_without item_id rest with
          | inl e => inl e
          | inr rest' => inr (if bool_decide (i ≠ item_id) then item :: rest' else rest')
          end
      end
  end.

Definition remove_mitigation_item (item_id : string) (now : string) : method bool :=
  self ← get_self;
  let initial_len := length (mitigation_plan self) in
  plan ← lift (items_without item_id (mitigation_plan self));
  assign (with_mitigation_plan plan);;
  self ← get_self;
  if bool_decide (length (mitigation_plan self) = initial_len)
  then raise (ValueError ("Mitigation item with ID " +:+ item_id +:+ " not found."))
  else
    assign (with_last_modified_date now);;
    mret true.

(** **** Methods for approval and monitoring *)

(** Truth value of a dict: it is not empty. *)
Definition nonempty (d : gmap string string) : bool := bool_decide (size d ≠ 0%nat).

Definition set_approval (assessor' reviewer' approver' : option (gmap string string))
    (now : string) : method unit :=
  let assessor' := default ∅ assessor' in
  let reviewer' := default ∅ reviewer' in
  let approver' := default ∅ approver' in
  self ← get_self;
  (if nonempty assessor'
   then assign (with_approvals
          (ApprovalSlots (dict_update (assessor (approvals self)) assessor')
             (reviewer (approvals self)) (approver (approvals self))))
   else mret tt);;
  self ← get_self;
  (if nonempty reviewer'
   then assign (with_approvals
          (ApprovalSlots (assessor (approvals self))
             (dict_update (reviewer (approvals self)) reviewer')
             (approver (approvals self))))
   else mret tt);;
  self ← get_self;
  (if nonempty approver'
   then assign (with_approvals
          (ApprovalSlots (assessor (approvals self)) (reviewer (approvals self))
             (dict_update (approver (approvals self)) approver')))
   else mret tt);;
  assign (with_last_modified_date now).

(** [if v is not None: self.<attribute> = v]. *)
Definition assign_unless_none (set : string → AIA → AIA) (v : str_or_none) : method unit :=
  match v with
  | Str s => assign (set s)
  | NoneValue => mret tt
  end.

Definition set_links (inventory_ref transparency_link : option str_or_none)
    (now : string) : method unit :=
  let inventory_ref := default (Str "") inventory_ref in
  let transparency_link := default (Str "") transparency_link in
  assign_unless_none with_ai_inventory_ref inventory_ref;;
  assign_unless_none with_transparency_statement_link transparency_link;;
  assign (with_last_modified_date now).

Definition set_monitoring (plan_ref frequency next_date : option str_or_none)
    (now : string) : method unit :=
  let plan_ref := default (Str "") plan_ref in
  let frequency := default (Str "") frequency in
  let next_date := default (Str "") next_date in
  assign_unless_none with_monitoring_plan_ref plan_ref;;
  assign_unless_none with_review_frequency frequency;;
  assign_unless_none with_next_review_date next_date;;
  assign (with_last_modified_date now).

(** **** Methods for the statuses *)

Definition set_aia_status (status : string) (now : string) : method unit :=
  let allowed_statuses := ["Draft"; "In Progress"; "Review"; "Approved"; "Archived"] in
  if bool_decide (status ∉ allowed_statuses)
  then raise (ValueError ("Invalid AIA status. Must be one of: " +:+ repr_list allowed_statuses))
  else
    assign (with_aia_status status);;
    assign (with_last_modified_date now).

Definition set_related_assessment_status (assessment_name status : string)
    (now : string) : method unit :=
  let allowed_statuses := ["Not Started"; "In Progress"; "Completed"; "N/A"] in
  self ← get_self;
  (if bool_decide (assessment_name ∉ dom (related_assessment_statuses self))
   then print ("Warning: Assessment type '" +:+ assessment_name +:+ "' not predefined. Adding dynamically.")
   else mret tt);;
  if bool_decide (status ∉ allowed_statuses)
  then raise (ValueError ("Invalid status for " +:+ assessment_name +:+ ". Must be one of: " +:+
                          repr_list allowed_statuses))
  else
    self ← get_self;
    assign (with_related_assessment_statuses
              (<[assessment_name := status]> (related_assessment_statuses self)));;
    assign (with_last_modified_date now).

(** *** Calls on the object

    The eleven public mutating methods as data, so that a property of
    "every mutating operation" can quantify over them. *)

Inductive call :=
| Call_set_metadata (assessed_by' : assessed_by_arg) (referenced_frameworks' : option string)
    (assessment_date' : option str_or_none)
| Call_set_system_details (system_name' agency_name' purpose : option string)
    (tech_specs data_details' deployment_context' procurement' related_assessments' :
       option (gmap string string))
| Call_set_dimension_score (dimension_name : string) (score' : pyval) (justification' : option string)
| Call_add_mitigation_item (dimension risk_score_desc action' responsible target_date : string)
    (status : option string)
| Call_update_mitigation_item (item_id : string) (updates : gmap string string)
| Call_remove_mitigation_item (item_id : string)
| Call_set_approval (assessor' reviewer' approver' : option (gmap string string))
| Call_set_links (inventory_ref transparency_link : option str_or_none)
| Call_set_monitoring (plan_ref frequency next_date : option str_or_none)
| Call_set_aia_status (status : string)
| Call_set_related_assessment_status (assessment_name status : string).

(** What a call leaves behind: the exception it raised, if any, and the object. *)
Definition effect {A} (r : result A) : option exn * AIA :=
  (match outcome r with inl e => Some e | inr _ => None end, self_after r).

Definition perform (c : call) (uuid now : string) (self : AIA) : option exn * AIA :=
  match c with
  | Call_set_metadata a r d => effect (set_metadata a r d now self)
  | Call_set_system_details sn an p ts dd dc pr ra =>
      effect (set_system_details sn an p ts dd dc pr ra now self)
  | Call_set_dimension_score d s j => effect (set_dimension_score d s j now self)
  | Call_add_mitigation_item d r a rp t st => effect (add_mitigation_item d r a rp t st uuid now self)
  | Call_update_mitigation_item i u => effect (update_mitigation_item i u now self)
  | Call_remove_mitigation_item i => effect (remove_mitigation_item i now self)
  | Call_set_approval a r p => effect (set_approval a r p now self)
  | Call_set_links i t => effect (set_links i t now self)
  | Call_set_monitoring p f n => effect (set_monitoring p f n now self)
  | Call_set_aia_status s => effect (set_aia_status s now self)
  | Call_set_related_assessment_status n s => effect (set_related_assessment_status n s now self)
  end.

(** One step of an object's life: a public mutating call, whether it returns
    or raises, or the recomputation [_update_risk_assessment] that the
    report and the callers run before reading the derived attributes. *)
Inductive step : AIA → AIA → Prop :=
| step_call c uuid now self : step self (perform c uuid now self).2
| step_recompute self : step self (self_after (_update_risk_assessment self)).

(** The states an object goes through from its construction on. *)
Definition reachable (self : AIA) : Prop :=
  ∃ system_name' agency_name' today now_created now_modified,
    rtc step (__init__ system_name' agency_name' today now_created now_modified) self.

(** *** Attributes by name, for frame conditions *)

Inductive attr :=
| A_aia_version | A_assessment_date | A_assessed_by | A_referenced_frameworks
| A_system_name | A_agency_name | A_system_purpose | A_technical_specs | A_data_details
| A_deployment_context | A_procurement | A_related_assessments | A_dimensions
| A_total_score | A_risk_category | A_mitigation_plan | A_approvals | A_ai_inventory_ref
| A_transparency_statement_link | A_monitoring_plan_ref | A_review_frequency
| A_next_review_date | A_system_id | A_aia_status | A_related_assessment_statuses
| A_creation_date | A_last_modified_date.

#[export] Instance attr_eq_dec : EqDecision attr.
Proof. solve_decision. Defined.

(** The attribute [a] has the same value in [s] and [s']. *)
Definition same_attr (a : attr) (s s' : AIA) : Prop :=
  match a with
  | A_aia_version => aia_version s = aia_version s'
  | A_assessment_date => assessment_date s = assessment_date s'
  | A_assessed_by => assessed_by s = assessed_by s'
  | A_referenced_frameworks => referenced_frameworks s = referenced_frameworks s'
  | A_system_name => system_name s = system_name s'
  | A_agency_name => agency_name s = agency_name s'
  | A_system_purpose => system_purpose s = system_purpose s'
  | A_technical_specs => technical_specs s = technical_specs s'
  | A_data_details => data_details s = data_details s'
  | A_deployment_context => deployment_context s = deployment_context s'
  | A_procurement => procurement s = procurement s'
  | A_related_assessments => related_assessments s = related_assessments s'
  | A_dimensions => dimensions s = dimensions s'
  | A_total_score => total_score s = total_score s'
  | A_risk_category => risk_category s = risk_category s'
  | A_mitigation_plan => mitigation_plan s = mitigation_plan s'
  | A_approvals => approvals s = approvals s'
  | A_ai_inventory_ref => ai_inventory_ref s = ai_inventory_ref s'
  | A_transparency_statement_link => transparency_statement_link s = transparency_statement_link s'
  | A_monitoring_plan_ref => monitoring_plan_ref s = monitoring_plan_ref s'
  | A_review_frequency => review_frequency s = review_frequency s'
  | A_next_review_date => next_review_date s = next_review_date s'
  | A_system_id => system_id s = system_id s'
  | A_aia_status => aia_status s = aia_status s'
  | A_related_assessment_statuses => related_assessment_statuses s = related_assessment_statuses s'
  | A_creation_date => creation_date s = creation_date s'
  | A_last_modified_date => last_modified_date s = last_modified_date s'
  end.

(** [s'] differs from [s] at most in the attributes listed in [changed]. *)
Definition same_except (changed : list attr) (s s' : AIA) : Prop :=
  ∀ a, a ∉ changed → same_attr a s s'.

(** A key of a patched dict: the value supplied for it, or else the old one. *)
Definition patch_value {V} (supplied old : option V) : option V :=
  match supplied with
  | Some v => Some v
  | None => old
  end.

(** The sum of the thirteen dimension scores, taken over [DIMENSIONS] in
    order: the total as the specification words it. *)
Definition score_of (dims : gmap string dim_entry) (dim : string) : Z :=
  from_option score 0 (dims !! dim).

Definition canonical_sum (dims : gmap string dim_entry) : Z :=
  foldr (λ dim acc, score_of dims dim + acc) 0 DIMENSIONS.

(** The invariant of [self.dimensions]: its keys are the thirteen canonical
    names and every score is between 0 and 5. *)
Definition dimensions_ok (dims : gmap string dim_entry) : Prop :=
  dom dims = list_to_set DIMENSIONS ∧
  ∀ dim entry, dims !! dim = Some entry → 0 <= score entry <= 5.

(** What holds of the scoring attributes throughout an object's life: the
    dimensions are well formed, and the two derived attributes are the ones
    computed from them. *)
Definition scoring_inv (self : AIA) : Prop :=
  dimensions_ok (dimensions self) ∧
  total_score self = computeTotal (dimensions self) ∧
  risk_category self = classifyRisk (total_score self).

(** The statuses a related assessment may have. *)
Definition RELATED_STATUSES : list string := ["Not Started"; "In Progress"; "Completed"; "N/A"].

(** An item of the plan has the identifier [item_id]. *)
Definition has_id (item_id : string) (item : gmap string string) : Prop :=
  item !! "id" = Some item_id.

#[export] Instance has_id_dec item_id item : Decision (has_id item_id item).
Proof. unfold has_id. apply _. Defined.

(** Every item of the plan carries an ['id']. *)
Definition plan_ok (plan : list (gmap string string)) : Prop :=
  Forall (λ item, is_Some (item !! "id")) plan.

(** ** Role permissions ([auth_manager.py]) *)

Module Permissions.
Definition VIEW_DASHBOARD : string := "view_dashboard".
Definition VIEW_REGISTER : string := "view_register".
Definition ADD_SYSTEM : string := "add_system".
Definition DELETE_SYSTEM : string := "delete_system".
Definition VIEW_AIA : string := "view_aia".
Definition EDIT_AIA : string := "edit_aia".
Definition CHANGE_STATUS : string := "change_status".
Definition APPROVE_AIA : string := "approve_aia".
Definition EXPORT_AIA : string := "export_aia".
Definition MANAGE_USERS : string := "manage_users".

(** The ten tokens the class defines. *)
Definition tokens : list string :=
  [ VIEW_DASHBOARD; VIEW_REGISTER; ADD_SYSTEM; DELETE_SYSTEM; VIEW_AIA; EDIT_AIA;
    CHANGE_STATUS; APPROVE_AIA; EXPORT_AIA; MANAGE_USERS ].
End Permissions.

Definition ROLE_PERMISSIONS : gmap string (list string) :=
  list_to_map
    [ ("admin",
       [ Permissions.VIEW_DASHBOARD; Permissions.VIEW_REGISTER;
         Permissions.ADD_SYSTEM; Permissions.DELETE_SYSTEM;
         Permissions.VIEW_AIA; Permissions.EDIT_AIA;
         Permissions.CHANGE_STATUS; Permissions.APPROVE_AIA;
         Permissions.EXPORT_AIA; Permissions.MANAGE_USERS ]);
      ("reviewer",
       [ Permissions.VIEW_DASHBOARD; Permissions.VIEW_REGISTER;
         Permissions.VIEW_AIA; Permissions.EDIT_AIA;
         Permissions.CHANGE_STATUS; Permissions.APPROVE_AIA;
         Permissions.EXPORT_AIA ]);
      ("assessor",
       [ Permissions.VIEW_DASHBOARD; Permissions.VIEW_REGISTER;
         Permissions.ADD_SYSTEM; Permissions.VIEW_AIA;
         Permissions.EDIT_AIA; Permissions.EXPORT_AIA ]);
      ("viewer",
       [ Permissions.VIEW_DASHBOARD; Permissions.VIEW_REGISTER;
         Permissions.VIEW_AIA; Permissions.EXPORT_AIA ]) ].

Record User := mkUser {
  email : string;
  name : string;
  role : string;
  agency : string;
  created_at : string;
  last_login : option string
}.

(** [User.has_permission]: a role outside the table has no permission;
    otherwise the token is looked up in the list of the role
    ([ROLE_PERMISSIONS[self.role]] is read only after the membership test,
    so the lookup cannot miss). *)
Definition has_permission (self : User) (permission : string) : bool :=
  if bool_decide (role self ∉ dom ROLE_PERMISSIONS)
  then false
  else bool_decide (permission ∈ default [] (ROLE_PERMISSIONS !! role self)).

(** ** Example objects *)

(** A record with its frameworks set, before a second [set_metadata] that
    leaves the frameworks out. *)
Definition record_with_frameworks : AIA :=
  self_after
    (set_metadata (AssessorList ["A. Lee (Lead Assessor)"]) (Some "ISO/IEC 42001") None
       "2025-03-01T09:00:00"
       (__init__ (Some "Benefits Triage") (Some "Dept X") "2025-03-01" "2025-03-01T08:00:00"
          "2025-03-01T08:00:00")).

(** A fresh record, as [db_manager] creates one. *)
Definition fresh_record : AIA :=
  __init__ (Some "Benefits Triage") (Some "Dept X") "2025-03-01" "2025-03-01T08:00:00"
    "2025-03-01T08:00:00".

(** The fresh record after three scores have been entered. *)
Definition scored_record : AIA :=
  (perform (Call_set_dimension_score "Bias and Fairness" (PyInt 4) (Some "Residual bias"))
     "" "2025-03-02T10:02:00"
     (perform (Call_set_dimension_score "Privacy Risk" (PyInt 5) None)
        "" "2025-03-02T10:01:00"
        (perform (Call_set_dimension_score "Human Impact" (PyInt 3) (Some "Affects payments"))
           "" "2025-03-02T10:00:00" fresh_record).2).2).2.

(** The fresh record with one mitigation item, drawn the identifier
    [9f1c2d3e]. *)
Definition planned_record : AIA :=
  (perform
     (Call_add_mitigation_item "Bias and Fairness" "Residual bias risk (Score=4)"
        "Annual external fairness audit" "AI Governance" "2025-08-30" None)
     "9f1c2d3e" "2025-03-02T11:00:00" fresh_record).2.

(** A record whose two links are set. *)
Definition linked_record : AIA :=
  (perform (Call_set_links (Some (Str "INV-7")) (Some (Str "https://agency.example/ai-transparency")))
     "" "2025-03-02T12:00:00" fresh_record).2.

(** A record whose three monitoring fields are set. *)
Definition monitored_record : AIA :=
  (perform
     (Call_set_monitoring (Some (Str "MON-3")) (Some (Str "Quarterly"))
        (Some (Str "2025-09-01")))
     "" "2025-03-02T12:30:00" fresh_record).2.

(** ** Running a method *)

Ltac unfold_methods :=
  cbv beta iota zeta delta
    [mbind method_bind mret method_ret get_self assign raise print lift assign_unless_none
     outcome self_after stdout effect perform
     set_metadata set_system_details set_dimension_score add_mitigation_item
     update_mitigation_item remove_mitigation_item set_approval set_links set_monitoring
     set_aia_status set_related_assessment_status
     _update_risk_assessment _calculate_total_score _determine_risk_category];
  cbn [from_option id].

(** Unfold the method and decide, one after the other, the tests that stand
    in the way of the next statement. *)
Ltac run :=
  unfold_methods;
  repeat (match goal with
          | |- context [match (if ?c then _ else _) _ with _ => _ end] => destruct c eqn:?
          | |- context [match (match ?c with _ => _ end) _ with _ => _ end] => destruct c eqn:?
          | |- context [match ?c with inl _ => _ | inr _ => _ end] => destruct c as [?|[? ?]] eqn:?
          | |- context [match ?c with inl _ => _ | inr _ => _ end] => destruct c eqn:?
          end; unfold_methods).

(** A frame condition: every attribute outside the list is read back
    unchanged through the assignments. *)
Ltac frame :=
  let a := fresh "a" in
  let Ha := fresh "Ha" in
  intros a Ha; destruct a; try reflexivity;
  exfalso; apply Ha; apply list_elem_of_In; cbn; tauto.

(** ** Further vocabulary for the assessment object *)

(** The statuses an assessment may have ([allowed_statuses] of [set_aia_status]). *)
Definition AIA_STATUSES : list string :=
  ["Draft"; "In Progress"; "Review"; "Approved"; "Archived"].

(** The related assessments [__init__] predefines. *)
Definition PREDEFINED_ASSESSMENTS : list string :=
  ["PIA"; "Security Assessment"; "Human Rights Assessment"].

(** The four categories of the table. *)
Definition TABLE_CATEGORIES : list string := ["Low"; "Medium"; "High"; "Severe"].

(** What holds of the two status attributes throughout an object's life. *)
Definition status_inv (self : AIA) : Prop :=
  aia_status self ∈ AIA_STATUSES ∧
  (∀ name, name ∈ PREDEFINED_ASSESSMENTS → name ∈ dom (related_assessment_statuses self)) ∧
  (∀ name status, related_assessment_statuses self !! name = Some status → status ∈ RELATED_STATUSES).

(** The identifiers of the items of a plan, in order. *)
Definition plan_ids (plan : list (gmap string string)) : list string :=
  omap (λ item, item !! "id") plan.

(** The score [set_dimension_score] stores, when its two checks let the
    call through. *)
Definition accepted_score (dims : gmap string dim_entry) (dimension_name : string)
    (score' : pyval) : option Z :=
  if bool_decide (dimension_name ∈ dom dims)
  then match as_int score' with
       | Some n => if (0 <=? n) && (n <=? 5) then Some n else None
       | None => None
       end
  else None.

(** The object after [set_dimension_score] has stored a score: the entry is
    replaced, the derived attributes are recomputed, the time is noted. *)
Definition with_score (dimension_name : string) (n : Z) (justification' now : string)
    (self : AIA) : AIA :=
  let dims := <[dimension_name := DimEntry n justification']> (dimensions self) in
  with_last_modified_date now
    (with_risk_category (classifyRisk (computeTotal dims))
       (with_total_score (computeTotal dims) (with_dimensions dims self))).

(** ** The user store ([auth_manager.py]) *)

(** [User.__init__]: [now] is the reading of the clock for [created_at]. *)
Definition User_init (email' name' : string) (role' agency' : option string)
    (now : string) : User :=
  {| email := email';
     name := name';
     role := default "viewer" role';
     agency := default "" agency';
     created_at := now;
     last_login := None |}.

(** [User.update_last_login]. *)
Definition update_last_login (now : string) (self : User) : User :=
  {| email := email self;
     name := name self;
     role := role self;
     agency := agency self;
     created_at := created_at self;
     last_login := Some now |}.

(** The attributes of an [AuthManager]. *)
Record AuthManager := mkAuthManager {
  users_file : string;
  users : gmap string User
}.

(** How the write of the users file ends: it succeeds, or [open] or
    [json.dump] raises [IOError], whose text is [msg]. *)
Inductive write_outcome :=
| Written
| IOError (msg : string).

(** The result of a call on an [AuthManager]: the value returned, the
    manager as the call leaves it, the lines printed. *)
Record auth_result (A : Type) := AuthResult {
  returned : A;
  manager_after : AuthManager;
  printed : list string
}.
Arguments AuthResult {A}.
Arguments returned {A}.
Arguments manager_after {A}.
Arguments printed {A}.

(** [_save_users]: [True] when the file is written; on [IOError] the error
    is printed and [False] returned.  The manager is not changed. *)
Definition _save_users (io : write_outcome) (self : AuthManager) : auth_result bool :=
  match io with
  | Written => AuthResult true self []
  | IOError e => AuthResult false self ["Error saving users: " +:+ e]
  end.

Definition _create_default_admin (now : string) (io : write_outcome)
    (self : AuthManager) : auth_result unit :=
  let admin := User_init "admin@example.com" "Default Admin" (Some "admin") (Some "System") now in
  let self := mkAuthManager (users_file self) (<[email admin := admin]> (users self)) in
  let saved := _save_users io self in
  AuthResult tt (manager_after saved)
    (printed saved ++ ["Created default admin user: admin@example.com"]).

(** [AuthManager.__init__] from the point where [_load_users] has run:
    [loaded] is what it has put in [self.users], nothing when the file is
    missing or cannot be read. *)
Definition AuthManager_init (users_file' : option string) (loaded : gmap string User)
    (now : string) (io : write_outcome) : auth_result unit :=
  let self := mkAuthManager (default "users.json" users_file') loaded in
  if bool_decide (size (users self) = 0%nat)
  then _create_default_admin now io self
  else AuthResult tt self [].

Definition get_user (email' : string) (self : AuthManager) : option User :=
  users self !! email'.

Definition add_user (email' name' : string) (role' agency' : option string)
    (now : string) (io : write_outcome) (self : AuthManager) : auth_result bool :=
  if bool_decide (email' ∈ dom (users self))
  then AuthResult false self []
  else
    let self :=
      mkAuthManager (users_file self)
        (<[email' := User_init email' name' role' agency' now]> (users self)) in
    _save_users io self.

(** [update_user]: an argument that is [None] leaves the attribute; the
    user is changed in place, so the store holds the changed user. *)
Definition update_user (email' : string) (name' role' agency' : option string)
    (io : write_outcome) (self : AuthManager) : auth_result bool :=
  match users self !! email' with
  | None => AuthResult false self []
  | Some user =>
      let user :=
        {| email := email user;
           name := default (name user) name';
           role := default (role user) role';
           agency := default (agency user) agency';
           created_at := created_at user;
           last_login := last_login user |} in
      _save_users io (mkAuthManager (users_file self) (<[email' := user]> (users self)))
  end.

Definition delete_user (email' : string) (io : write_outcome)
    (self : AuthManager) : auth_result bool :=
  if bool_decide (email' ∉ dom (users self))
  then AuthResult false self []
  else _save_users io (mkAuthManager (users_file self) (delete email' (users self))).

(** [authenticate_user]: a user that is found has the time of the login
    noted, in place; what [_save_users] returns is not looked at. *)
Definition authenticate_user (email' : string) (now : string) (io : write_outcome)
    (self : AuthManager) : auth_result (option User) :=
  match get_user email' self with
  | Some user =>
      let user := update_last_login now user in
      let self := mkAuthManager (users_file self) (<[email' := user]> (users self)) in
      let saved := _save_users io self in
      AuthResult (Some user) (manager_after saved) (printed saved)
  | None => AuthResult None self []
  end.

Definition user_has_permission (email' permission : string) (self : AuthManager) : bool :=
  match get_user email' self with
  | None => false
  | Some user => has_permission user permission
  end.

(** Every user is stored under its own e-mail address. *)
Definition users_keyed (self : AuthManager) : Prop :=
  ∀ key user, users self !! key = Some user → email user = key.

(** The manager of a first start: no users file, the write succeeds. *)
Definition first_manager : AuthManager :=
  manager_after (AuthManager_init None ∅ "2025-03-01T08:00:00" Written).

(** ** Saving an object ([db_manager.py]) *)

(** [aia_object.system_id = v], as [get_aia_object] and the callers of
    [add_system] assign it. *)
Definition with_system_id (v : option Z) (self : AIA) : AIA :=
  mkAIA (aia_version self) (assessment_date self) (assessed_by self)
    (referenced_frameworks self) (system_name self) (agency_name self) (system_purpose self)
    (technical_specs self) (data_details self) (deployment_context self) (procurement self)
    (related_assessments self) (dimensions self) (total_score self) (risk_category self)
    (mitigation_plan self) (approvals self) (ai_inventory_ref self)
    (transparency_statement_link self) (monitoring_plan_ref self) (review_frequency self)
    (next_review_date self) v (aia_status self) (related_assessment_statuses self)
    (creation_date self) (last_modified_date self).

(** The parameters of the [UPDATE ai_systems] statement of [update_aia], in
    the order of its placeholders.  [row_aia_data] is the object whose
    [__dict__] is written as JSON. *)
Record update_row := UpdateRow {
  row_system_name : string;
  row_agency_name : string;
  row_aia_status : string;
  row_risk_category : string;
  row_total_score : Z;
  row_pia_status : string;
  row_security_assessment_status : string;
  row_human_rights_assessment_status : string;
  row_last_modified_date : string;
  row_aia_data : AIA;
  row_system_id : Z
}.

(** [update_aia], with the object as [self]: the value is the statement it
    executes; [total_changes] is the number of rows the connection reports
    as changed. *)
Definition update_aia (now : string) (total_changes : Z) : method update_row :=
  aia_object ← get_self;
  match system_id aia_object with
  | None => raise (ValueError "AIA object must have a system_id to be updated.")
  | Some id =>
      if bool_decide (id = 0)
      then raise (ValueError "AIA object must have a system_id to be updated.")
      else
        _update_risk_assessment;;
        assign (with_last_modified_date now);;
        aia_object ← get_self;
        let risk_category' := category (risk_category aia_object) in
        let total_score' := total_score aia_object in
        let aia_status' := aia_status aia_object in
        let pia_status := default "Not Started" (related_assessment_statuses aia_object !! "PIA") in
        let sec_status :=
          default "Not Started" (related_assessment_statuses aia_object !! "Security Assessment") in
        let hr_status :=
          default "Not Started"
            (related_assessment_statuses aia_object !! "Human Rights Assessment") in
        let row :=
          UpdateRow (system_name aia_object) (agency_name aia_object) aia_status' risk_category'
            total_score' pia_status sec_status hr_status (last_modified_date aia_object)
            aia_object id in
        (if bool_decide (total_changes = 0)
         then print ("Warning: No rows updated for system_id " +:+ pretty id +:+ ". Does it exist?")
         else print ("Updated system_id " +:+ pretty id));;
        mret row
  end.

(** The record with three scores, loaded as system 7, with a total that was
    written over from outside. *)
Definition drifted_record : AIA :=
  with_total_score 60 (with_system_id (Some 7) scored_record).
(** ** The risk table *)

Section RiskTable.

Ltac table_case :=
  unfold classifyRisk, RISK_CATEGORIES; cbn [classify_in range_min range_max ci_category ci_action];
  repeat match goal with
         | |- context [?a <=? ?b] =>
             let E := fresh "E" in
             destruct (Z.leb_spec a b) as [E | E]; cbn [andb]; try lia
         end;
  try reflexivity.

Lemma classifyRisk_low t : 0 <= t <= 10 → classifyRisk t = Risk "Low" ACTION_LOW.
Proof. intros Ht. table_case. Qed.

Lemma classifyRisk_medium t : 11 <= t <= 25 → classifyRisk t = Risk "Medium" ACTION_MEDIUM.
Proof. intros Ht. table_case. Qed.

Lemma classifyRisk_high t : 26 <= t <= 40 → classifyRisk t = Risk "High" ACTION_HIGH.
Proof. intros Ht. table_case. Qed.

Lemma classifyRisk_severe t : 41 <= t <= 65 → classifyRisk t = Risk "Severe" ACTION_SEVERE.
Proof. intros Ht. table_case. Qed.

Lemma classifyRisk_undefined t :
  t < 0 ∨ 65 < t → classifyRisk t = Risk "Undefined" "Score out of expected range.".
Proof. intros Ht. table_case. Qed.

End RiskTable.

(** C1.  [classifyRisk] sends every total to exactly one category: Low on
    [0,10], Medium on [11,25], High on [26,40], Severe on [41,65], each with
    its fixed action text, and Undefined with the action "Score out of
    expected range." on every integer outside [0,65].  The five cases are
    equivalences, so the four ranges cover [0,65] without gap or overlap;
    the boundary totals 10, 11, 25, 26, 40 and 41 are evaluated at the end. *)
Theorem C1_classifyRisk_partition (t : Z) :
  (classifyRisk t = Risk "Low" ACTION_LOW ↔ 0 <= t <= 10) ∧
  (classifyRisk t = Risk "Medium" ACTION_MEDIUM ↔ 11 <= t <= 25) ∧
  (classifyRisk t = Risk "High" ACTION_HIGH ↔ 26 <= t <= 40) ∧
  (classifyRisk t = Risk "Severe" ACTION_SEVERE ↔ 41 <= t <= 65) ∧
  (classifyRisk t = Risk "Undefined" "Score out of expected range." ↔ t < 0 ∨ 65 < t) ∧
  category (classifyRisk 10) = "Low" ∧ category (classifyRisk 11) = "Medium" ∧
  category (classifyRisk 25) = "Medium" ∧ category (classifyRisk 26) = "High" ∧
  category (classifyRisk 40) = "High" ∧ category (classifyRisk 41) = "Severe" ∧
  category (classifyRisk (-1)) = "Undefined" ∧ category (classifyRisk 66) = "Undefined".
Proof.
  assert (Hcases :
    (0 <= t <= 10 ∧ classifyRisk t = Risk "Low" ACTION_LOW) ∨
    (11 <= t <= 25 ∧ classifyRisk t = Risk "Medium" ACTION_MEDIUM) ∨
    (26 <= t <= 40 ∧ classifyRisk t = Risk "High" ACTION_HIGH) ∨
    (41 <= t <= 65 ∧ classifyRisk t = Risk "Severe" ACTION_SEVERE) ∨
    ((t < 0 ∨ 65 < t) ∧ classifyRisk t = Risk "Undefined" "Score out of expected range.")).
  { destruct (Z_lt_le_dec t 0); [right; right; right; right; split; [lia|apply classifyRisk_undefined; lia]|].
    destruct (Z_le_gt_dec t 10); [left; split; [lia|apply classifyRisk_low; lia]|].
    destruct (Z_le_gt_dec t 25); [right; left; split; [lia|apply classifyRisk_medium; lia]|].
    destruct (Z_le_gt_dec t 40); [right; right; left; split; [lia|apply classifyRisk_high; lia]|].
    destruct (Z_le_gt_dec t 65); [right; right; right; left; split; [lia|apply classifyRisk_severe; lia]|].
    right; right; right; right; split; [lia|apply classifyRisk_undefined; lia]. }
  split_and!; try reflexivity;
    (split;
     [ intros Heq; destruct Hcases as [[Hr E]|[[Hr E]|[[Hr E]|[[Hr E]|[Hr E]]]]];
       rewrite E in Heq; first [discriminate Heq | lia]
     | ]).
  - apply classifyRisk_low.
  - apply classifyRisk_medium.
  - apply classifyRisk_high.
  - apply classifyRisk_severe.
  - apply classifyRisk_undefined.
Qed.

(** ** The permission check *)

Section RolePermissions.

Lemma ROLE_PERMISSIONS_lookup (r : string) :
  ROLE_PERMISSIONS !! r =
    if decide (r = "admin") then
      Some [ Permissions.VIEW_DASHBOARD; Permissions.VIEW_REGISTER; Permissions.ADD_SYSTEM;
             Permissions.DELETE_SYSTEM; Permissions.VIEW_AIA; Permissions.EDIT_AIA;
             Permissions.CHANGE_STATUS; Permissions.APPROVE_AIA; Permissions.EXPORT_AIA;
             Permissions.MANAGE_USERS ]
    else if decide (r = "reviewer") then
      Some [ Permissions.VIEW_DASHBOARD; Permissions.VIEW_REGISTER; Permissions.VIEW_AIA;
             Permissions.EDIT_AIA; Permissions.CHANGE_STATUS; Permissions.APPROVE_AIA;
             Permissions.EXPORT_AIA ]
    else if decide (r = "assessor") then
      Some [ Permissions.VIEW_DASHBOARD; Permissions.VIEW_REGISTER; Permissions.ADD_SYSTEM;
             Permissions.VIEW_AIA; Permissions.EDIT_AIA; Permissions.EXPORT_AIA ]
    else if decide (r = "viewer") then
      Some [ Permissions.VIEW_DASHBOARD; Permissions.VIEW_REGISTER; Permissions.VIEW_AIA;
             Permissions.EXPORT_AIA ]
    else None.
Proof.
  unfold ROLE_PERMISSIONS. cbn [list_to_map foldr uncurry fst snd].
  repeat (rewrite lookup_insert; case_decide; subst; [repeat case_decide; congruence|]).
  rewrite lookup_empty. repeat case_decide; congruence.
Qed.

Lemma has_permission_lookup (u : User) (p : string) :
  has_permission u p = bool_decide (p ∈ default [] (ROLE_PERMISSIONS !! role u)).
Proof.
  unfold has_permission. case_bool_decide as Hdom; [|done].
  apply not_elem_of_dom in Hdom. rewrite Hdom.
  symmetry. apply bool_decide_eq_false_2. change (p ∉ []). apply not_elem_of_nil.
Qed.

End RolePermissions.

(** C6.  [has_permission] is true exactly when the token is in the list the
    table gives for the user's role; for a role that is not one of admin,
    reviewer, assessor and viewer it is false on every token; a viewer has
    no EDIT_AIA; an admin has each of the ten tokens of [Permissions]. *)
Theorem C6_has_permission (u : User) (p : string) :
  (has_permission u p = true ↔ ∃ perms, ROLE_PERMISSIONS !! role u = Some perms ∧ p ∈ perms) ∧
  (role u ∉ ["admin"; "reviewer"; "assessor"; "viewer"] → has_permission u p = false) ∧
  (role u = "viewer" → has_permission u Permissions.EDIT_AIA = false) ∧
  (role u = "admin" → Forall (λ t, has_permission u t = true) Permissions.tokens) ∧
  length Permissions.tokens = 10%nat ∧ NoDup Permissions.tokens.
Proof.
  split_and!.
  - rewrite has_permission_lookup, bool_decide_eq_true. split.
    + destruct (ROLE_PERMISSIONS !! role u) as [perms|] eqn:E; cbn.
      * intros Hp. by exists perms.
      * intros Hp. by apply elem_of_nil in Hp.
    + intros (perms & -> & Hp). exact Hp.
  - intros Hrole. rewrite has_permission_lookup, ROLE_PERMISSIONS_lookup.
    apply bool_decide_eq_false_2.
    repeat case_decide;
      try (exfalso; apply Hrole;
           match goal with Hr : role u = _ |- _ => rewrite Hr end;
           apply list_elem_of_In; cbn; tauto).
    change (p ∉ []). apply not_elem_of_nil.
  - intros Hrole. rewrite has_permission_lookup, ROLE_PERMISSIONS_lookup, Hrole.
    vm_compute. reflexivity.
  - intros Hrole. unfold Permissions.tokens.
    repeat (apply Forall_cons; split;
            [rewrite has_permission_lookup, ROLE_PERMISSIONS_lookup, Hrole; vm_compute; reflexivity|]).
    apply Forall_nil. done.
  - reflexivity.
  - apply (bool_decide_unpack _). vm_compute. exact I.
Qed.

(** The permission scenario of C6 on three users. *)
Lemma C6_has_permission_witness :
  has_permission (mkUser "v@example.com" "V" "viewer" "" "2025-01-01" None) Permissions.EDIT_AIA = false ∧
  has_permission (mkUser "x@example.com" "X" "auditor" "" "2025-01-01" None) Permissions.VIEW_AIA = false ∧
  Forall (λ t, has_permission (mkUser "a@example.com" "A" "admin" "" "2025-01-01" None) t = true)
    Permissions.tokens.
Proof.
  split_and!.
  - apply (proj1 (proj2 (proj2
             (C6_has_permission (mkUser "v@example.com" "V" "viewer" "" "2025-01-01" None) "")))).
    reflexivity.
  - apply (proj1 (proj2
             (C6_has_permission (mkUser "x@example.com" "X" "auditor" "" "2025-01-01" None)
                Permissions.VIEW_AIA))).
    intros H. cbn in H. repeat (apply elem_of_cons in H as [H|H]; [discriminate H|]).
    by apply elem_of_nil in H.
  - apply (proj1 (proj2 (proj2 (proj2
             (C6_has_permission (mkUser "a@example.com" "A" "admin" "" "2025-01-01" None) ""))))).
    reflexivity.
Defined.

(** ** Dicts and truth values *)

Lemma dict_update_lookup {V} (d other : gmap string V) (k : string) :
  dict_update d other !! k = patch_value (other !! k) (d !! k).
Proof.
  unfold dict_update, patch_value. rewrite lookup_union.
  destruct (other !! k), (d !! k); reflexivity.
Qed.

Lemma nonempty_false (d : gmap string string) : nonempty d = false → d = ∅.
Proof.
  unfold nonempty. intros H. apply bool_decide_eq_false in H.
  apply map_size_empty_iff. destruct (size d); [reflexivity | contradiction H; discriminate].
Qed.

Lemma truthy_Str (s : string) : truthy (Str s) = bool_decide (s ≠ "").
Proof. reflexivity. Qed.

(** ** The partial-update setters *)

Section Setters.

Variables (self : AIA) (now : string).

Lemma set_approval_patch (a r p : option (gmap string string)) :
  let res := set_approval a r p now self in
  outcome res = inr tt ∧
  same_except [A_approvals; A_last_modified_date] self (self_after res) ∧
  ∀ k,
    assessor (approvals (self_after res)) !! k
      = patch_value (default ∅ a !! k) (assessor (approvals self) !! k) ∧
    reviewer (approvals (self_after res)) !! k
      = patch_value (default ∅ r !! k) (reviewer (approvals self) !! k) ∧
    approver (approvals (self_after res)) !! k
      = patch_value (default ∅ p !! k) (approver (approvals self) !! k).
Proof.
  cbv zeta. run;
    (split; [reflexivity|]; split; [frame|]; intros k; cbn;
     repeat match goal with
            | H : nonempty _ = false |- _ => apply nonempty_false in H; rewrite H; clear H
            end;
     rewrite ?dict_update_lookup, ?lookup_empty; cbn; done).
Qed.

Lemma set_system_details_patch (sn an pu : option string)
    (ts dd dc pr ra : option (gmap string string)) :
  let res := set_system_details sn an pu ts dd dc pr ra now self in
  outcome res = inr tt ∧
  same_except
    [A_system_name; A_agency_name; A_system_purpose; A_technical_specs; A_data_details;
     A_deployment_context; A_procurement; A_related_assessments; A_last_modified_date]
    self (self_after res) ∧
  system_name (self_after res)
    = (if bool_decide (default "" sn ≠ "") then default "" sn else system_name self) ∧
  agency_name (self_after res)
    = (if bool_decide (default "" an ≠ "") then default "" an else agency_name self) ∧
  system_purpose (self_after res)
    = (if bool_decide (default "" pu ≠ "") then default "" pu else system_purpose self) ∧
  ∀ k,
    technical_specs (self_after res) !! k
      = patch_value (default ∅ ts !! k) (technical_specs self !! k) ∧
    data_details (self_after res) !! k
      = patch_value (default ∅ dd !! k) (data_details self !! k) ∧
    deployment_context (self_after res) !! k
      = patch_value (default ∅ dc !! k) (deployment_context self !! k) ∧
    procurement (self_after res) !! k
      = patch_value (default ∅ pr !! k) (procurement self !! k) ∧
    related_assessments (self_after res) !! k
      = (if bool_decide (k ∈ ["pia_ref"; "other_assessments"])
         then patch_value (default ∅ ra !! k) (related_assessments self !! k)
         else related_assessments self !! k).
Proof.
  cbv zeta. run;
    (split; [reflexivity|]; split; [frame|]; cbn;
     rewrite <- !truthy_Str;
     repeat match goal with H : truthy _ = _ |- _ => rewrite H; clear H end;
     split_and!; try reflexivity;
     intros k; split_and!; rewrite ?dict_update_lookup; try reflexivity).
  all: case_bool_decide as Hk;
    [ apply list_elem_of_In in Hk; cbn in Hk; destruct Hk as [<-|[<-|[]]];
      repeat first [rewrite lookup_insert_eq | rewrite lookup_insert_ne by discriminate];
      repeat match goal with H : _ !! _ = _ |- _ => rewrite H; clear H end; reflexivity
    | rewrite ?lookup_insert_ne; [reflexivity|..];
      intros <-; apply Hk; apply list_elem_of_In; cbn; tauto ].
Qed.

Lemma set_metadata_effect (ab : assessed_by_arg) (rf : option string)
    (ad : option str_or_none) :
  let res := set_metadata ab rf ad now self in
  outcome res = inr tt ∧
  same_except
    [A_assessed_by; A_referenced_frameworks; A_assessment_date; A_last_modified_date]
    self (self_after res) ∧
  assessed_by (self_after res)
    = match ab with AssessorList l => l | AssessorSingle a => [a] end ∧
  referenced_frameworks (self_after res) = default "" rf ∧
  assessment_date (self_after res)
    = match ad with
      | Some (Str d) => if bool_decide (d ≠ "") then d else assessment_date self
      | Some NoneValue | None => assessment_date self
      end.
Proof.
  cbv zeta. destruct ab, ad as [[|d]|]; run;
    (split; [reflexivity|]; split; [frame|]; cbn;
     rewrite <- ?truthy_Str;
     repeat match goal with H : truthy _ = _ |- _ => rewrite H; clear H end;
     split_and!; reflexivity).
Qed.

Lemma set_links_effect (i t : option str_or_none) :
  let res := set_links i t now self in
  outcome res = inr tt ∧
  same_except [A_ai_inventory_ref; A_transparency_statement_link; A_last_modified_date]
    self (self_after res) ∧
  ai_inventory_ref (self_after res)
    = match i with
      | Some (Str v) => v
      | Some NoneValue => ai_inventory_ref self
      | None => ""
      end ∧
  transparency_statement_link (self_after res)
    = match t with
      | Some (Str v) => v
      | Some NoneValue => transparency_statement_link self
      | None => ""
      end.
Proof.
  cbv zeta. destruct i as [[|i]|], t as [[|t]|]; run;
    (split; [reflexivity|]; split; [frame|]; split; reflexivity).
Qed.

Lemma set_monitoring_effect (p f n : option str_or_none) :
  let res := set_monitoring p f n now self in
  outcome res = inr tt ∧
  same_except [A_monitoring_plan_ref; A_review_frequency; A_next_review_date;
               A_last_modified_date]
    self (self_after res) ∧
  monitoring_plan_ref (self_after res)
    = match p with
      | Some (Str v) => v
      | Some NoneValue => monitoring_plan_ref self
      | None => ""
      end ∧
  review_frequency (self_after res)
    = match f with
      | Some (Str v) => v
      | Some NoneValue => review_frequency self
      | None => ""
      end ∧
  next_review_date (self_after res)
    = match n with
      | Some (Str v) => v
      | Some NoneValue => next_review_date self
      | None => ""
      end.
Proof.
  cbv zeta. destruct p as [[|p]|], f as [[|f]|], n as [[|n]|]; run;
    (split; [reflexivity|]; split; [frame|]; split_and!; reflexivity).
Qed.

End Setters.

(** C4.  The claim fails on the code, by a slip in three of the five
    setters.  [set_links] and [set_monitoring] guard every assignment with
    [is not None], but the default of each argument is [""], so an argument
    the caller leaves out is not [None] and its field is overwritten with the
    empty text: [set_links] with the inventory reference alone clears the
    transparency link, and [set_monitoring] with the frequency alone clears
    the plan reference and the next review date.  [set_metadata] assigns
    [referenced_frameworks] with no guard at all, next to the guarded
    [assessment_date], so leaving the frameworks out clears them.  This holds
    on every object and is evaluated on three records whose fields were set;
    the guard itself works, a field passed as [None] keeps its value, and
    each call returns normally and touches only its own fields and
    [last_modified_date]. *)
Theorem C4_omitted_argument_resets_field :
  (transparency_statement_link linked_record = "https://agency.example/ai-transparency" ∧
   let res := set_links (Some (Str "INV-8")) None "2025-03-02T13:00:00" linked_record in
   outcome res = inr tt ∧
   ai_inventory_ref (self_after res) = "INV-8" ∧
   transparency_statement_link (self_after res) = "") ∧
  (monitoring_plan_ref monitored_record = "MON-3" ∧
   next_review_date monitored_record = "2025-09-01" ∧
   let res :=
     set_monitoring None (Some (Str "Monthly")) None "2025-03-02T13:00:00" monitored_record in
   outcome res = inr tt ∧
   review_frequency (self_after res) = "Monthly" ∧
   monitoring_plan_ref (self_after res) = "" ∧
   next_review_date (self_after res) = "") ∧
  (referenced_frameworks record_with_frameworks = "ISO/IEC 42001" ∧
   let res :=
     set_metadata (AssessorSingle "B. Chen (Reviewer)") None None "2025-03-02T10:00:00"
       record_with_frameworks in
   outcome res = inr tt ∧
   referenced_frameworks (self_after res) = "") ∧
  (∀ (self : AIA) (now : string) (i t : option str_or_none),
     let res := set_links i t now self in
     outcome res = inr tt ∧
     same_except [A_ai_inventory_ref; A_transparency_statement_link; A_last_modified_date]
       self (self_after res) ∧
     (i = None → ai_inventory_ref (self_after res) = "") ∧
     (t = None → transparency_statement_link (self_after res) = "") ∧
     (i = Some NoneValue → ai_inventory_ref (self_after res) = ai_inventory_ref self) ∧
     (t = Some NoneValue →
      transparency_statement_link (self_after res) = transparency_statement_link self) ∧
     (∀ v, i = Some (Str v) → ai_inventory_ref (self_after res) = v) ∧
     (∀ v, t = Some (Str v) → transparency_statement_link (self_after res) = v)) ∧
  (∀ (self : AIA) (now : string) (p f n : option str_or_none),
     let res := set_monitoring p f n now self in
     outcome res = inr tt ∧
     same_except [A_monitoring_plan_ref; A_review_frequency; A_next_review_date;
                  A_last_modified_date]
       self (self_after res) ∧
     (p = None → monitoring_plan_ref (self_after res) = "") ∧
     (f = None → review_frequency (self_after res) = "") ∧
     (n = None → next_review_date (self_after res) = "") ∧
     (p = Some NoneValue → monitoring_plan_ref (self_after res) = monitoring_plan_ref self) ∧
     (f = Some NoneValue → review_frequency (self_after res) = review_frequency self) ∧
     (n = Some NoneValue → next_review_date (self_after res) = next_review_date self) ∧
     (∀ v, p = Some (Str v) → monitoring_plan_ref (self_after res) = v) ∧
     (∀ v, f = Some (Str v) → review_frequency (self_after res) = v) ∧
     (∀ v, n = Some (Str v) → next_review_date (self_after res) = v)) ∧
  (∀ (self : AIA) (now : string) (ab : assessed_by_arg) (rf : option string)
     (ad : option str_or_none),
     let res := set_metadata ab rf ad now self in
     outcome res = inr tt ∧
     same_except
       [A_assessed_by; A_referenced_frameworks; A_assessment_date; A_last_modified_date]
       self (self_after res) ∧
     referenced_frameworks (self_after res) = default "" rf ∧
     (ad = None → assessment_date (self_after res) = assessment_date self)).
Proof.
  split; [|split; [|split; [|split; [|split]]]].
  - cbv zeta. split_and!; reflexivity.
  - cbv zeta. split_and!; reflexivity.
  - cbv zeta. split_and!; reflexivity.
  - intros self now i t. cbv zeta.
    destruct (set_links_effect self now i t) as (Ho & Hf & Hi & Ht).
    rewrite Hi, Ht. split_and!; [exact Ho | exact Hf | ..]; intros; subst; reflexivity.
  - intros self now p f n. cbv zeta.
    destruct (set_monitoring_effect self now p f n) as (Ho & Hfr & Hp & Hf & Hn).
    rewrite Hp, Hf, Hn. split_and!; [exact Ho | exact Hfr | ..]; intros; subst; reflexivity.
  - intros self now ab rf ad. cbv zeta.
    destruct (set_metadata_effect self now ab rf ad) as (Ho & Hf & _ & Hrf & Had).
    split_and!; [exact Ho | exact Hf | exact Hrf |].
    intros ->. exact Had.
Qed.

(** C10.  In [set_system_details] an empty text supplied for [system_name],
    [agency_name] or [purpose] leaves the attribute as it was, exactly as
    when the argument is left out, and a non-empty text supplied overwrites
    it; hence an attribute that is not empty is never empty after the call. *)
Theorem C10_set_system_details_empty (self : AIA) (now : string)
    (sn an pu : option string) (ts dd dc pr ra : option (gmap string string)) :
  let self' := self_after (set_system_details sn an pu ts dd dc pr ra now self) in
  (sn = Some "" ∨ sn = None → system_name self' = system_name self) ∧
  (an = Some "" ∨ an = None → agency_name self' = agency_name self) ∧
  (pu = Some "" ∨ pu = None → system_purpose self' = system_purpose self) ∧
  (∀ v, v ≠ "" → sn = Some v → system_name self' = v) ∧
  (∀ v, v ≠ "" → an = Some v → agency_name self' = v) ∧
  (∀ v, v ≠ "" → pu = Some v → system_purpose self' = v) ∧
  (system_name self ≠ "" → system_name self' ≠ "") ∧
  (agency_name self ≠ "" → agency_name self' ≠ "") ∧
  (system_purpose self ≠ "" → system_purpose self' ≠ "").
Proof.
  cbv zeta.
  destruct (set_system_details_patch self now sn an pu ts dd dc pr ra)
    as (_ & _ & Hsn & Han & Hpu & _).
  cbv zeta in Hsn, Han, Hpu. rewrite Hsn, Han, Hpu. clear Hsn Han Hpu.
  split_and!.
  - intros [-> | ->]; reflexivity.
  - intros [-> | ->]; reflexivity.
  - intros [-> | ->]; reflexivity.
  - intros v Hv ->. cbn. by rewrite bool_decide_eq_true_2.
  - intros v Hv ->. cbn. by rewrite bool_decide_eq_true_2.
  - intros v Hv ->. cbn. by rewrite bool_decide_eq_true_2.
  - intros Hne. by case_bool_decide.
  - intros Hne. by case_bool_decide.
  - intros Hne. by case_bool_decide.
Qed.

(** C10 on a record named "Benefits Triage": an empty name keeps it, and
    "Claims Triage" replaces it. *)
Lemma C10_set_system_details_empty_witness :
  system_name
    (self_after
       (set_system_details (Some "") None None None None None None None "2025-03-02T10:00:00"
          record_with_frameworks)) = "Benefits Triage" ∧
  system_name
    (self_after
       (set_system_details (Some "Claims Triage") None None None None None None None
          "2025-03-02T10:00:00" record_with_frameworks)) = "Claims Triage".
Proof.
  split.
  - apply (proj1 (C10_set_system_details_empty record_with_frameworks "2025-03-02T10:00:00"
                    (Some "") None None None None None None None)).
    left. reflexivity.
  - apply (proj1 (proj2 (proj2 (proj2
             (C10_set_system_details_empty record_with_frameworks "2025-03-02T10:00:00"
                (Some "Claims Triage") None None None None None None None))))).
    + discriminate.
    + reflexivity.
Defined.

(** ** Related-assessment statuses *)

Lemma set_related_assessment_status_run (assessment_name status now : string) (self : AIA) :
  set_related_assessment_status assessment_name status now self =
    let out :=
      if bool_decide (assessment_name ∉ dom (related_assessment_statuses self))
      then ["Warning: Assessment type '" +:+ assessment_name +:+
            "' not predefined. Adding dynamically."]
      else [] in
    if bool_decide (status ∉ RELATED_STATUSES)
    then Result (inl (ValueError ("Invalid status for " +:+ assessment_name +:+
                                  ". Must be one of: " +:+ repr_list RELATED_STATUSES)))
           self out
    else Result (inr tt)
           (with_last_modified_date now
              (with_related_assessment_statuses
                 (<[assessment_name := status]> (related_assessment_statuses self)) self))
           out.
Proof. cbv zeta. unfold RELATED_STATUSES. run; reflexivity. Qed.

(** C8.  [set_related_assessment_status] raises [ValueError] exactly when
    the status is not one of Not Started, In Progress, Completed and N/A,
    and then leaves the object as it was, so that no name is added; with one
    of the four statuses it returns for any name, predefined or not, and the
    mapping holds that status under that name, nothing else than the mapping
    and [last_modified_date] being changed.  A name that is not yet in the
    mapping only gets a warning printed. *)
Theorem C8_set_related_assessment_status (self : AIA) (assessment_name status now : string) :
  let res := set_related_assessment_status assessment_name status now self in
  ((∃ msg, outcome res = inl (ValueError msg)) ↔ status ∉ RELATED_STATUSES) ∧
  (outcome res = inr tt ↔ status ∈ RELATED_STATUSES) ∧
  (status ∉ RELATED_STATUSES → self_after res = self) ∧
  (status ∈ RELATED_STATUSES →
     related_assessment_statuses (self_after res)
       = <[assessment_name := status]> (related_assessment_statuses self) ∧
     same_except [A_related_assessment_statuses; A_last_modified_date] self (self_after res)) ∧
  (assessment_name ∈ dom (related_assessment_statuses self) ↔ stdout res = []).
Proof.
  cbv zeta. rewrite set_related_assessment_status_run. cbv zeta.
  match goal with
  | |- context [if bool_decide (assessment_name ∉ ?d) then ?w else []] =>
      set (out := if bool_decide (assessment_name ∉ d) then w else [])
  end.
  assert (Hout : assessment_name ∈ dom (related_assessment_statuses self) ↔ out = [])
    by (unfold out; case_bool_decide; split; done).
  clearbody out.
  case_bool_decide as Hstatus; cbn [outcome self_after stdout].
  - (* the status is refused *)
    split_and!; [| | | |exact Hout].
    + split; [done | by eexists].
    + split; [discriminate | done].
    + reflexivity.
    + done.
  - (* the status is one of the four *)
    split_and!; [| | | |exact Hout].
    + split; [intros [msg [=]] | done].
    + done.
    + done.
    + intros _. split; [reflexivity | frame].
Qed.

(** C8 on a fresh record: "Ethics Review" is not predefined; with the status
    Completed it is added, with the status Done nothing changes. *)
Lemma C8_set_related_assessment_status_witness :
  related_assessment_statuses
    (self_after
       (set_related_assessment_status "Ethics Review" "Completed" "2025-03-02T10:00:00"
          fresh_record)) !! "Ethics Review" = Some "Completed" ∧
  self_after
    (set_related_assessment_status "Ethics Review" "Done" "2025-03-02T10:00:00" fresh_record)
    = fresh_record.
Proof.
  split.
  - rewrite (proj1 (proj1 (proj2 (proj2 (proj2
               (C8_set_related_assessment_status fresh_record "Ethics Review" "Completed"
                  "2025-03-02T10:00:00"))))
               ltac:(apply list_elem_of_In; cbn; tauto))).
    apply lookup_insert_eq.
  - apply (proj1 (proj2 (proj2
             (C8_set_related_assessment_status fresh_record "Ethics Review" "Done"
                "2025-03-02T10:00:00")))).
    intros H. apply list_elem_of_In in H. cbn in H.
    repeat (destruct H as [H|H]; [discriminate H|]). exact H.
Defined.

(** ** The modification time *)

(** C9.  Each of the eleven mutating methods, when it returns, leaves
    [last_modified_date] at the time of the call; none of them, returning or
    raising, touches [creation_date], which the constructor sets. *)
Theorem C9_last_modified_date (c : call) (uuid now : string) (self : AIA) :
  ((perform c uuid now self).1 = None →
     last_modified_date (perform c uuid now self).2 = now) ∧
  creation_date (perform c uuid now self).2 = creation_date self ∧
  ∀ sn an today now_created now_modified,
    creation_date (__init__ sn an today now_created now_modified) = now_created.
Proof.
  split_and!; [| |reflexivity];
    destruct c; run; cbn [fst snd]; try reflexivity; try discriminate.
Qed.

(** C9 on a fresh record: a score set at 10:00 leaves that time. *)
Lemma C9_last_modified_date_witness :
  last_modified_date
    (perform (Call_set_dimension_score "Privacy Risk" (PyInt 4) (Some "Sensitive data"))
       "" "2025-03-02T10:00:00" fresh_record).2 = "2025-03-02T10:00:00".
Proof.
  apply (proj1 (C9_last_modified_date
                  (Call_set_dimension_score "Privacy Risk" (PyInt 4) (Some "Sensitive data"))
                  "" "2025-03-02T10:00:00" fresh_record)).
  vm_compute. reflexivity.
Defined.

(** ** The total score *)

Section Totals.

Lemma NoDup_DIMENSIONS : NoDup DIMENSIONS.
Proof. apply (bool_decide_unpack _). vm_compute. exact I. Qed.

Lemma length_DIMENSIONS : length DIMENSIONS = 13%nat.
Proof. reflexivity. Qed.

(** The running sum of Python's [sum] against the sum of a list. *)
Lemma foldl_running_sum (l : list dim_entry) (a : Z) :
  foldl (λ acc dim, acc + score dim) a l = a + foldr Z.add 0 (score <$> l).
Proof.
  revert a. induction l as [|d l IH]; intros a; cbn.
  - lia.
  - rewrite IH. lia.
Qed.

Lemma sum_permutation (l k : list Z) : l ≡ₚ k → foldr Z.add 0 l = foldr Z.add 0 k.
Proof. induction 1; cbn; lia. Qed.

Lemma sum_bounds (l : list Z) :
  Forall (λ x, 0 <= x <= 5) l → 0 <= foldr Z.add 0 l <= 5 * Z.of_nat (length l).
Proof. induction 1 as [|x l Hx _ IH]; cbn [foldr length]; lia. Qed.

Lemma canonical_sum_foldr (dims : gmap string dim_entry) :
  canonical_sum dims = foldr Z.add 0 (score_of dims <$> DIMENSIONS).
Proof. unfold canonical_sum. induction DIMENSIONS as [|d l IH]; cbn; [reflexivity | by rewrite IH]. Qed.

(** The keys of a well-formed [dimensions] are the canonical names, in
    some order. *)
Lemma keys_permutation (dims : gmap string dim_entry) :
  dom dims = list_to_set DIMENSIONS → (map_to_list dims).*1 ≡ₚ DIMENSIONS.
Proof.
  intros Hdom. apply NoDup_Permutation.
  - apply NoDup_fst_map_to_list.
  - apply NoDup_DIMENSIONS.
  - intros k. split.
    + intros ([k' e] & -> & Hin)%list_elem_of_fmap. apply elem_of_map_to_list in Hin.
      assert (Hk : k' ∈ dom dims) by (apply elem_of_dom; by exists e).
      rewrite Hdom in Hk. by apply elem_of_list_to_set in Hk.
    + intros Hin. assert (Hk : k ∈ dom dims) by (rewrite Hdom; by apply elem_of_list_to_set).
      apply elem_of_dom in Hk as [e He]. apply list_elem_of_fmap.
      exists (k, e). split; [reflexivity | by apply elem_of_map_to_list].
Qed.

Lemma scores_of_keys (dims : gmap string dim_entry) :
  score_of dims <$> (map_to_list dims).*1 = score <$> (map_to_list dims).*2.
Proof.
  assert (H : Forall (λ kv, dims !! kv.1 = Some kv.2) (map_to_list dims)).
  { apply Forall_forall. intros [k e] Hin. by apply elem_of_map_to_list. }
  induction H as [|[k e] l Hk _ IH]; cbn; [reflexivity|].
  rewrite IH. unfold score_of. cbn in Hk. by rewrite Hk.
Qed.

(** The sum the code takes over the values of the dict is the sum of the
    thirteen scores. *)
Lemma computeTotal_canonical (dims : gmap string dim_entry) :
  dom dims = list_to_set DIMENSIONS → computeTotal dims = canonical_sum dims.
Proof.
  intros Hdom. unfold computeTotal.
  rewrite foldl_running_sum, canonical_sum_foldr, <- scores_of_keys, Z.add_0_l.
  apply sum_permutation. by rewrite (keys_permutation dims Hdom).
Qed.

Lemma canonical_sum_bounds (dims : gmap string dim_entry) :
  dimensions_ok dims → 0 <= canonical_sum dims <= 65.
Proof.
  intros [Hdom Hscores]. rewrite canonical_sum_foldr.
  pose proof (sum_bounds (score_of dims <$> DIMENSIONS)) as Hb.
  rewrite length_fmap, length_DIMENSIONS in Hb. apply Hb.
  apply Forall_fmap, Forall_forall. intros d Hd. cbn. unfold score_of.
  destruct (dims !! d) as [e|] eqn:He; cbn; [by apply (Hscores d) | lia].
Qed.

Lemma computeTotal_bounds (dims : gmap string dim_entry) :
  dimensions_ok dims → 0 <= computeTotal dims <= 65.
Proof.
  intros Hok. rewrite computeTotal_canonical by apply Hok. by apply canonical_sum_bounds.
Qed.

End Totals.

(** ** The scoring invariant *)

Section Scoring.

Lemma dimensions_ok_init : dimensions_ok (list_to_map ((λ dim, (dim, DimEntry 0 "")) <$> DIMENSIONS)).
Proof.
  split.
  - rewrite dom_list_to_map_L. reflexivity.
  - intros d e He. apply elem_of_list_to_map_2, list_elem_of_fmap in He.
    destruct He as (d' & [= -> ->] & _). cbn. lia.
Qed.

Lemma scoring_inv_init sn an today t1 t2 : scoring_inv (__init__ sn an today t1 t2).
Proof.
  split_and!.
  - apply dimensions_ok_init.
  - cbn [total_score dimensions __init__]. vm_compute. reflexivity.
  - reflexivity.
Qed.

(** Storing a score between 0 and 5 under a canonical name keeps the
    dimensions well formed; the two writes of [set_dimension_score] amount
    to one entry replaced. *)
Lemma dimensions_after_write (dims : gmap string dim_entry) (d : string) (n : Z) (j : string) :
  d ∈ dom dims →
  alter (set_justification j) d (alter (set_score n) d dims) = <[d := DimEntry n j]> dims.
Proof.
  intros [e He]%elem_of_dom. apply map_eq. intros k.
  destruct (decide (d = k)) as [<-|Hne].
  - rewrite lookup_alter_eq, lookup_alter_eq, He, lookup_insert_eq. reflexivity.
  - by rewrite !lookup_alter_ne, lookup_insert_ne.
Qed.

Lemma dimensions_ok_write (dims : gmap string dim_entry) (d : string) (n : Z) (j : string) :
  dimensions_ok dims → d ∈ dom dims → 0 <= n <= 5 →
  dimensions_ok (<[d := DimEntry n j]> dims).
Proof.
  intros [Hdom Hscores] Hd Hn. split.
  - rewrite dom_insert_L, <- Hdom. apply subseteq_union_1_L. by apply singleton_subseteq_l.
  - intros k e. rewrite lookup_insert. case_decide.
    + intros [= <-]. exact Hn.
    + apply Hscores.
Qed.

Lemma scoring_inv_frame (s s' : AIA) :
  dimensions s' = dimensions s → total_score s' = total_score s →
  risk_category s' = risk_category s → scoring_inv s → scoring_inv s'.
Proof. unfold scoring_inv. intros -> -> ->. done. Qed.

Lemma scoring_inv_step (s s' : AIA) : step s s' → scoring_inv s → scoring_inv s'.
Proof.
  intros Hstep Hinv. destruct Hstep as [c uuid now self | self].
  - destruct c; run; cbn [fst snd];
      try (apply (scoring_inv_frame self); [reflexivity..|exact Hinv]).
    destruct Hinv as (Hok & _ & _).
    apply bool_decide_eq_false, dec_stable in Heqb.
    apply negb_false_iff, andb_true_iff in Heqb0 as [H0 H5].
    apply Z.leb_le in H0, H5.
    unfold scoring_inv. cbn.
    rewrite dimensions_after_write by exact Heqb.
    split_and!; [apply dimensions_ok_write; done | reflexivity | reflexivity].
  - run. destruct Hinv as (Hok & _ & _). unfold scoring_inv. cbn. done.
Qed.

Lemma reachable_scoring_inv (self : AIA) : reachable self → scoring_inv self.
Proof.
  intros (sn & an & today & t1 & t2 & Hrtc).
  eapply (rtc_ind_r (λ s, scoring_inv s)); [| |exact Hrtc].
  - apply scoring_inv_init.
  - intros s s' _ Hstep Hinv. by eapply scoring_inv_step.
Qed.

End Scoring.

(** ** Scores through an object's life *)

Section Reachable.

Lemma reachable_init sn an today t1 t2 : reachable (__init__ sn an today t1 t2).
Proof. exists sn, an, today, t1, t2. apply rtc_refl. Qed.

Lemma reachable_perform (c : call) (uuid now : string) (self : AIA) :
  reachable self → reachable (perform c uuid now self).2.
Proof.
  intros (sn & an & today & t1 & t2 & Hrtc). exists sn, an, today, t1, t2.
  eapply rtc_r; [exact Hrtc | apply step_call].
Qed.

Lemma reachable_scored_record : reachable scored_record.
Proof. unfold scored_record. do 3 apply reachable_perform. apply reachable_init. Qed.

(** Only [set_dimension_score] writes the scoring attributes. *)
Lemma other_calls_keep_scores (c : call) (uuid now : string) (self : AIA) :
  (∀ d sc j, c ≠ Call_set_dimension_score d sc j) →
  dimensions (perform c uuid now self).2 = dimensions self ∧
  total_score (perform c uuid now self).2 = total_score self ∧
  risk_category (perform c uuid now self).2 = risk_category self.
Proof.
  intros Hc. destruct c; try (by destruct (Hc _ _ _ eq_refl));
    run; cbn [fst snd]; split_and!; reflexivity.
Qed.

Lemma canonical_dom (self : AIA) (d : string) :
  reachable self → d ∈ dom (dimensions self) ↔ d ∈ DIMENSIONS.
Proof.
  intros ((Hdom & _) & _)%reachable_scoring_inv.
  rewrite Hdom. apply elem_of_list_to_set.
Qed.

End Reachable.

(** C2.  In every state an object reaches, [total_score] is the sum of the
    thirteen dimension scores and lies between 0 and 65.  The constructor
    starts from thirteen scores 0 and the total 0; after
    [set_dimension_score] the total is the one recomputed from the
    dimensions; no other mutating method changes a dimension or the total.
    On any mapping of the thirteen canonical names to scores between 0 and
    5, [computeTotal] is that sum, between 0 and 65. *)
Theorem C2_total_score (self : AIA) (Hreach : reachable self) :
  total_score self = canonical_sum (dimensions self) ∧
  0 <= total_score self <= 65 ∧
  (∀ sn an today t1 t2,
     total_score (__init__ sn an today t1 t2) = 0 ∧
     ∀ d, d ∈ DIMENSIONS → score_of (dimensions (__init__ sn an today t1 t2)) d = 0) ∧
  (∀ d sc j now,
     total_score (self_after (set_dimension_score d sc j now self))
       = computeTotal (dimensions (self_after (set_dimension_score d sc j now self)))) ∧
  (∀ c uuid now,
     (∀ d sc j, c ≠ Call_set_dimension_score d sc j) →
     dimensions (perform c uuid now self).2 = dimensions self ∧
     total_score (perform c uuid now self).2 = total_score self) ∧
  (∀ dims : gmap string dim_entry,
     dom dims = list_to_set DIMENSIONS →
     (∀ d e, dims !! d = Some e → 0 <= score e <= 5) →
     computeTotal dims = canonical_sum dims ∧ 0 <= computeTotal dims <= 65).
Proof.
  pose proof (reachable_scoring_inv self Hreach) as (Hok & Htotal & _).
  split_and!.
  - rewrite Htotal. apply computeTotal_canonical, Hok.
  - rewrite Htotal. by apply computeTotal_bounds.
  - rewrite Htotal. by apply computeTotal_bounds.
  - intros. split; [reflexivity|].
    intros d Hd. apply list_elem_of_In in Hd. cbn in Hd.
    repeat (destruct Hd as [<-|Hd]; [vm_compute; reflexivity|]). destruct Hd.
  - intros d sc j now.
    apply (reachable_scoring_inv (perform (Call_set_dimension_score d sc j) "" now self).2).
    by apply reachable_perform.
  - intros c uuid now Hc. destruct (other_calls_keep_scores c uuid now self Hc) as (? & ? & _).
    by split.
  - intros dims Hdom Hscores. split.
    + by apply computeTotal_canonical.
    + by apply computeTotal_bounds.
Qed.

(** C2 on the record with the scores 3, 5 and 4 entered: the total is 12. *)
Lemma C2_total_score_witness :
  total_score scored_record = canonical_sum (dimensions scored_record) ∧
  canonical_sum (dimensions scored_record) = 12.
Proof.
  split.
  - apply (proj1 (C2_total_score scored_record reachable_scored_record)).
  - vm_compute. reflexivity.
Defined.

(** C7.  In every state an object reaches, the keys of [dimensions] are
    exactly the thirteen canonical names and every score is an integer
    between 0 and 5.  The constructor starts there, [set_dimension_score]
    keeps it, and no other mutating method writes to [dimensions]. *)
Theorem C7_dimensions_invariant (self : AIA) (Hreach : reachable self) :
  (∀ d, d ∈ dom (dimensions self) ↔ d ∈ DIMENSIONS) ∧
  size (dimensions self) = 13%nat ∧
  length DIMENSIONS = 13%nat ∧ NoDup DIMENSIONS ∧
  (∀ d e, dimensions self !! d = Some e → 0 <= score e <= 5) ∧
  (∀ sn an today t1 t2, dimensions_ok (dimensions (__init__ sn an today t1 t2))) ∧
  (∀ d sc j now, dimensions_ok (dimensions (self_after (set_dimension_score d sc j now self)))) ∧
  (∀ c uuid now,
     (∀ d sc j, c ≠ Call_set_dimension_score d sc j) →
     dimensions (perform c uuid now self).2 = dimensions self).
Proof.
  pose proof (reachable_scoring_inv self Hreach) as ((Hdom & Hscores) & _).
  split_and!.
  - intros d. by apply canonical_dom.
  - rewrite <- size_dom, Hdom, size_list_to_set by apply NoDup_DIMENSIONS. reflexivity.
  - reflexivity.
  - apply NoDup_DIMENSIONS.
  - exact Hscores.
  - intros. apply dimensions_ok_init.
  - intros d sc j now.
    apply (reachable_scoring_inv (perform (Call_set_dimension_score d sc j) "" now self).2).
    by apply reachable_perform.
  - intros c uuid now Hc. apply (other_calls_keep_scores c uuid now self Hc).
Qed.

(** C7 on the record with three scores entered: "Privacy Risk" is a key,
    "Cost" is not. *)
Lemma C7_dimensions_invariant_witness :
  ("Privacy Risk" ∈ dom (dimensions scored_record) ↔ "Privacy Risk" ∈ DIMENSIONS) ∧
  size (dimensions scored_record) = 13%nat.
Proof.
  split.
  - apply (proj1 (C7_dimensions_invariant scored_record reachable_scored_record)).
  - apply (proj1 (proj2 (C7_dimensions_invariant scored_record reachable_scored_record))).
Defined.

(** C3.  On an object in a reachable state, [set_dimension_score] raises
    [ValueError] whenever the name is not one of the thirteen canonical
    names or the score is not an integer between 0 and 5, and then the
    object is exactly as before.  On a canonical name with an integer score
    between 0 and 5 it returns, the dimension holds that score and that
    justification, the other dimensions are as before, and [total_score] and
    [risk_category] are the recomputed ones; nothing else changes but
    [last_modified_date]. *)
Theorem C3_set_dimension_score (self : AIA) (Hreach : reachable self)
    (d : string) (sc : pyval) (j : option string) (now : string) :
  let res := set_dimension_score d sc j now self in
  (d ∉ DIMENSIONS ∨ (∀ n, as_int sc = Some n → ¬ 0 <= n <= 5) →
     (∃ msg, outcome res = inl (ValueError msg)) ∧ self_after res = self) ∧
  (∀ n, d ∈ DIMENSIONS → as_int sc = Some n → 0 <= n <= 5 →
     outcome res = inr tt ∧
     dimensions (self_after res) = <[d := DimEntry n (default "" j)]> (dimensions self) ∧
     total_score (self_after res) = canonical_sum (dimensions (self_after res)) ∧
     risk_category (self_after res) = classifyRisk (total_score (self_after res)) ∧
     same_except [A_dimensions; A_total_score; A_risk_category; A_last_modified_date]
       self (self_after res)).
Proof.
  cbv zeta. pose proof (canonical_dom self d Hreach) as Hd.
  assert (Hafter : scoring_inv (self_after (set_dimension_score d sc j now self))).
  { apply (reachable_scoring_inv (perform (Call_set_dimension_score d sc j) "" now self).2).
    by apply reachable_perform. }
  destruct Hafter as (Hok' & Htotal' & Hrisk').
  rewrite Htotal', (computeTotal_canonical _ (proj1 Hok')) in *.
  clear Hok' Htotal'. revert Hrisk'.
  run; intros Hrisk';
    repeat match goal with
           | H : bool_decide _ = true |- _ => apply bool_decide_eq_true in H
           | H : bool_decide _ = false |- _ => apply bool_decide_eq_false, dec_stable in H
           | H : negb _ = true |- _ => apply negb_true_iff, andb_false_iff in H
           | H : negb _ = false |- _ => apply negb_false_iff, andb_true_iff in H as [??]
           end.
  - (* the name is not a key *)
    split; [intros _; split; [by eexists | reflexivity]|].
    intros n Hin. exfalso. apply Heqb. by apply Hd.
  - (* an integer out of range *)
    split; [intros _; split; [by eexists | reflexivity]|].
    intros n Hin [= <-] Hn. exfalso. destruct Heqb0 as [H|H]; apply Z.leb_gt in H; lia.
  - (* an integer in range *)
    apply Z.leb_le in H, H0. split.
    + intros [Hnot | Hbad]; exfalso; [by apply Hnot, Hd | by apply (Hbad z)].
    + intros n Hin [= <-] Hn. cbn in *.
      rewrite dimensions_after_write in * by exact Heqb.
      split_and!; [reflexivity | reflexivity | reflexivity | exact Hrisk' | frame].
  - (* not an integer *)
    split; [intros _; split; [by eexists | reflexivity]|].
    intros n Hin [=].
Qed.

(** C3 on a fresh record: the scores 6 and -1, and the name "Cost", are
    refused and leave the record as it was. *)
Lemma C3_set_dimension_score_witness :
  self_after (set_dimension_score "Privacy Risk" (PyInt 6) None "2025-03-02T10:00:00" fresh_record)
    = fresh_record ∧
  self_after (set_dimension_score "Privacy Risk" (PyInt (-1)) None "2025-03-02T10:00:00" fresh_record)
    = fresh_record ∧
  self_after (set_dimension_score "Cost" (PyInt 2) None "2025-03-02T10:00:00" fresh_record)
    = fresh_record.
Proof.
  pose proof (reachable_init (Some "Benefits Triage") (Some "Dept X") "2025-03-01"
                "2025-03-01T08:00:00" "2025-03-01T08:00:00") as Hreach.
  split_and!.
  - apply (proj1 (C3_set_dimension_score fresh_record Hreach "Privacy Risk" (PyInt 6) None
                    "2025-03-02T10:00:00")).
    right. intros n [= <-]. lia.
  - apply (proj1 (C3_set_dimension_score fresh_record Hreach "Privacy Risk" (PyInt (-1)) None
                    "2025-03-02T10:00:00")).
    right. intros n [= <-]. lia.
  - apply (proj1 (C3_set_dimension_score fresh_record Hreach "Cost" (PyInt 2) None
                    "2025-03-02T10:00:00")).
    left. intros H. apply list_elem_of_In in H. cbn in H.
    repeat (destruct H as [H|H]; [discriminate H|]). exact H.
Defined.

(** ** The mitigation plan *)

Section Plan.

Lemma dict_update_keeps_id (item updates : gmap string string) :
  is_Some (item !! "id") → is_Some (dict_update item updates !! "id").
Proof.
  intros [i Hi]. rewrite dict_update_lookup, Hi.
  destruct (updates !! "id"); cbn; eauto.
Qed.

(** The loop of [update_mitigation_item] on a plan whose items all carry
    an identifier: either no item has [item_id] and the plan is left as it
    is, or the first item that has it is the one updated. *)
Lemma update_loop_spec (item_id : string) (updates : gmap string string)
    (plan : list (gmap string string)) :
  plan_ok plan →
  (Forall (λ item, ¬ has_id item_id item) plan ∧
     update_loop item_id updates plan = inr (false, plan)) ∨
  (∃ l1 item l2,
     plan = l1 ++ item :: l2 ∧
     Forall (λ item, ¬ has_id item_id item) l1 ∧ has_id item_id item ∧
     update_loop item_id updates plan = inr (true, l1 ++ dict_update item updates :: l2)).
Proof.
  induction 1 as [|item plan [i Hi] Hplan IH]; cbn.
  - left. split; [constructor | reflexivity].
  - unfold getitem. rewrite Hi. case_bool_decide as Heq.
    + subst i. right. exists [], item, plan. split_and!; [reflexivity | constructor | exact Hi | reflexivity].
    + assert (Hno : ¬ has_id item_id item) by (unfold has_id; congruence).
      destruct IH as [[Hall ->] | (l1 & it & l2 & -> & Hl1 & Hit & ->)].
      * left. split; [by constructor | reflexivity].
      * right. exists (item :: l1), it, l2.
        split_and!; [reflexivity | by constructor | exact Hit | reflexivity].
Qed.

Lemma items_without_spec (item_id : string) (plan : list (gmap string string)) :
  plan_ok plan →
  items_without item_id plan = inr (filter (λ item, ¬ has_id item_id item) plan).
Proof.
  induction 1 as [|item plan [i Hi] Hplan IH]; [reflexivity|].
  cbn [items_without]. unfold getitem. rewrite Hi, IH. f_equal.
  rewrite filter_cons.
  case_bool_decide as H1; case_decide as H2; try reflexivity;
    exfalso; unfold has_id in H2; rewrite Hi in H2;
    try apply dec_stable in H1; congruence.
Qed.

Lemma filter_none {A} (P : A → Prop) `{!∀ x, Decision (P x)} (l : list A) :
  Forall (λ x, ¬ P x) l → filter P l = [].
Proof.
  induction 1 as [|x l Hx _ IH]; [reflexivity|]. by rewrite filter_cons_False.
Qed.

Lemma Forall_filter_keep {A} (P Q : A → Prop) `{!∀ x, Decision (P x)} (l : list A) :
  Forall Q l → Forall Q (filter P l).
Proof.
  rewrite !Forall_forall. intros HQ x [_ Hx]%list_elem_of_filter. by apply HQ.
Qed.

Lemma assign_own_plan (self : AIA) : with_mitigation_plan (mitigation_plan self) self = self.
Proof. by destruct self. Qed.

(** [update_mitigation_item] in terms of its loop. *)
Lemma update_mitigation_item_run (item_id : string) (updates : gmap string string)
    (now : string) (self : AIA) :
  update_mitigation_item item_id updates now self =
    match update_loop item_id updates (mitigation_plan self) with
    | inl e => Result (inl e) self []
    | inr (true, plan) =>
        Result (inr true) (with_last_modified_date now (with_mitigation_plan plan self)) []
    | inr (false, plan) =>
        Result (inl (ValueError ("Mitigation item with ID " +:+ item_id +:+ " not found.")))
          (with_mitigation_plan plan self) []
    end.
Proof.
  unfold_methods.
  destruct (update_loop item_id updates (mitigation_plan self)) as [e|[[] plan]]; reflexivity.
Qed.

(** [remove_mitigation_item] in terms of its comprehension. *)
Lemma remove_mitigation_item_run (item_id now : string) (self : AIA) :
  remove_mitigation_item item_id now self =
    match items_without item_id (mitigation_plan self) with
    | inl e => Result (inl e) self []
    | inr plan =>
        if bool_decide (length plan = length (mitigation_plan self))
        then Result (inl (ValueError ("Mitigation item with ID " +:+ item_id +:+ " not found.")))
               (with_mitigation_plan plan self) []
        else Result (inr true) (with_last_modified_date now (with_mitigation_plan plan self)) []
    end.
Proof.
  unfold_methods.
  destruct (items_without item_id (mitigation_plan self)) as [e|plan]; [reflexivity|].
  cbn [mitigation_plan with_mitigation_plan]. by case_bool_decide.
Qed.

Lemma plan_ok_step (s s' : AIA) :
  step s s' → plan_ok (mitigation_plan s) → plan_ok (mitigation_plan s').
Proof.
  intros Hstep Hok. destruct Hstep as [c uuid now self | self]; [|exact Hok].
  destruct c; try (run; cbn [fst snd]; exact Hok).
  - (* add *)
    run; cbn [fst snd]; cbn [mitigation_plan with_mitigation_plan with_last_modified_date];
      (apply Forall_app; split; [exact Hok|]);
      (constructor; [|constructor]); eexists; reflexivity.
  - (* update *)
    cbn [perform]. rewrite update_mitigation_item_run.
    destruct (update_loop_spec item_id updates _ Hok)
      as [[_ ->] | (l1 & it & l2 & Hplan & _ & _ & ->)]; cbn; [exact Hok|].
    rewrite Hplan in Hok. apply Forall_app in Hok as [Hl1 Hl2].
    apply Forall_cons in Hl2 as [Hit Hl2].
    apply Forall_app. split; [exact Hl1|]. constructor; [|exact Hl2].
    by apply dict_update_keeps_id.
  - (* remove *)
    cbn [perform]. rewrite remove_mitigation_item_run, items_without_spec by exact Hok.
    case_bool_decide; cbn; by apply Forall_filter_keep.
Qed.

Lemma reachable_plan_ok (self : AIA) : reachable self → plan_ok (mitigation_plan self).
Proof.
  intros (sn & an & today & t1 & t2 & Hrtc).
  eapply (rtc_ind_r (λ s, plan_ok (mitigation_plan s))); [| |exact Hrtc].
  - constructor.
  - intros s s' _ Hstep Hok. by eapply plan_ok_step.
Qed.

End Plan.

(** C5, as the code has it.  [add_mitigation_item] appends one item and
    returns the identifier drawn for it, which is the item's ['id']; when
    the draw is not yet used in the plan, the new item is the only one that
    has it.  [update_mitigation_item] raises [ValueError] exactly when no
    item of the plan has the identifier, and then leaves the object as it
    was; otherwise it returns, and the first item with that identifier, at
    its place in the plan, has the given fields written over it: a field
    that is not among the updates keeps its value, so the identifier is kept
    whenever ['id'] is not among the updates, and the other items are
    untouched.  After [remove_mitigation_item] has returned, an update with
    the same identifier raises [ValueError]. *)
Theorem C5_mitigation_items (self : AIA) (Hreach : reachable self) (item_id now : string) :
  (∀ dimension risk_score_desc action' responsible target_date status uuid,
     let res := add_mitigation_item dimension risk_score_desc action' responsible target_date
                  status uuid now self in
     outcome res = inr uuid ∧
     ∃ item,
       mitigation_plan (self_after res) = mitigation_plan self ++ [item] ∧
       has_id uuid item ∧
       (Forall (λ item, ¬ has_id uuid item) (mitigation_plan self) →
        filter (has_id uuid) (mitigation_plan (self_after res)) = [item])) ∧
  (∀ updates,
     let res := update_mitigation_item item_id updates now self in
     ((∃ msg, outcome res = inl (ValueError msg))
        ↔ Forall (λ item, ¬ has_id item_id item) (mitigation_plan self)) ∧
     (Forall (λ item, ¬ has_id item_id item) (mitigation_plan self) → self_after res = self) ∧
     (Exists (has_id item_id) (mitigation_plan self) →
      outcome res = inr true ∧
      same_except [A_mitigation_plan; A_last_modified_date] self (self_after res) ∧
      ∃ l1 item item' l2,
        mitigation_plan self = l1 ++ item :: l2 ∧
        Forall (λ item, ¬ has_id item_id item) l1 ∧ has_id item_id item ∧
        mitigation_plan (self_after res) = l1 ++ item' :: l2 ∧
        (∀ k, item' !! k = patch_value (updates !! k) (item !! k)) ∧
        (updates !! "id" = None → has_id item_id item'))) ∧
  (∀ updates now',
     outcome (remove_mitigation_item item_id now self) = inr true →
     ∃ msg,
       outcome (update_mitigation_item item_id updates now'
                  (self_after (remove_mitigation_item item_id now self)))
         = inl (ValueError msg)).
Proof.
  pose proof (reachable_plan_ok self Hreach) as Hok.
  split_and!.
  - intros dimension risk_score_desc action' responsible target_date status uuid.
    cbv zeta. run. split; [reflexivity|].
    eexists. split; [reflexivity|]. split; [reflexivity|].
    intros Hfresh. cbn [mitigation_plan with_mitigation_plan with_last_modified_date].
    rewrite filter_app, filter_cons_True by reflexivity.
    by rewrite (filter_none _ _ Hfresh).
  - intros updates. cbv zeta. rewrite update_mitigation_item_run.
    destruct (update_loop_spec item_id updates _ Hok)
      as [[Hnone ->] | (l1 & it & l2 & Hplan & Hl1 & Hit & ->)]; cbn.
    + split_and!.
      * split; [done | by eexists].
      * intros _. apply assign_own_plan.
      * intros Hex. exfalso. apply Exists_exists in Hex as (x & Hx & Hid).
        by apply (proj1 (Forall_forall _ _) Hnone x Hx).
    + split_and!.
      * split; [intros [msg [=]]|].
        rewrite Hplan. intros [_ Hno]%Forall_app. apply Forall_cons in Hno as [Hno _].
        by destruct (Hno Hit).
      * rewrite Hplan. intros [_ Hno]%Forall_app. apply Forall_cons in Hno as [Hno _].
        by destruct (Hno Hit).
      * intros _. split; [reflexivity|]. split; [frame|].
        exists l1, it, (dict_update it updates), l2.
        split_and!; [exact Hplan | exact Hl1 | exact Hit | reflexivity | |].
        -- intros k. apply dict_update_lookup.
        -- intros Hnoid. unfold has_id. by rewrite dict_update_lookup, Hnoid.
  - intros updates now'. rewrite remove_mitigation_item_run, items_without_spec by exact Hok.
    case_bool_decide as Hlen; cbn; [intros [=]|]. intros _.
    rewrite update_mitigation_item_run.
    cbn [mitigation_plan with_mitigation_plan with_last_modified_date].
    set (rest := filter (λ item, ¬ has_id item_id item) (mitigation_plan self)).
    assert (Hrest : plan_ok rest) by by apply Forall_filter_keep.
    destruct (update_loop_spec item_id updates rest Hrest)
      as [[_ ->] | (l1 & it & l2 & Hplan & _ & Hit & _)]; [by eexists|].
    exfalso. assert (Hin : it ∈ rest) by (rewrite Hplan; set_solver).
    apply list_elem_of_filter in Hin as [Hno _]. by apply Hno.
Qed.

(** C5 on the record with one item: its identifier is found, and after a
    status update the item still has it. *)
Lemma C5_mitigation_items_witness :
  outcome (update_mitigation_item "9f1c2d3e" {["status" := "Completed"]} "2025-03-03T09:00:00"
             planned_record) = inr true ∧
  ∃ msg,
    outcome (update_mitigation_item "0000" {["status" := "Completed"]} "2025-03-03T09:00:00"
               planned_record) = inl (ValueError msg).
Proof.
  assert (Hreach : reachable planned_record).
  { unfold planned_record, fresh_record. apply reachable_perform, reachable_init. }
  split.
  - apply (proj1 (proj2 (C5_mitigation_items planned_record Hreach "9f1c2d3e"
                           "2025-03-03T09:00:00")) {["status" := "Completed"]}).
    apply Exists_cons_hd. reflexivity.
  - apply (proj1 (proj2 (C5_mitigation_items planned_record Hreach "0000"
                           "2025-03-03T09:00:00")) {["status" := "Completed"]}).
    repeat constructor. discriminate.
Defined.

(** C5 as stated fails when the updates name ['id']: the update returns and
    the item no longer has the identifier it was addressed by. *)
Lemma C5_update_overwrites_id :
  (mitigation_plan planned_record !! 0%nat) ≫= (.!! "id") = Some "9f1c2d3e" ∧
  outcome (update_mitigation_item "9f1c2d3e" {["id" := "other"]} "2025-03-03T09:00:00"
             planned_record) = inr true ∧
  (mitigation_plan
     (self_after (update_mitigation_item "9f1c2d3e" {["id" := "other"]} "2025-03-03T09:00:00"
                    planned_record)) !! 0%nat) ≫= (.!! "id") = Some "other".
Proof. split_and!; vm_compute; reflexivity. Qed.

(** * Further properties of the code *)


(** ** The overall status *)

(** X1.  [set_aia_status] raises [ValueError] exactly when the status is not
    one of Draft, In Progress, Review, Approved and Archived (the comparison
    is exact, so "draft" is refused), and then leaves the object as it was;
    otherwise it returns, the object has that status, and nothing else
    changes but [last_modified_date].  It prints nothing. *)
Theorem X1_set_aia_status (self : AIA) (status now : string) :
  let res := set_aia_status status now self in
  ((∃ msg, outcome res = inl (ValueError msg)) ↔ status ∉ AIA_STATUSES) ∧
  (outcome res = inr tt ↔ status ∈ AIA_STATUSES) ∧
  (status ∉ AIA_STATUSES → self_after res = self) ∧
  (status ∈ AIA_STATUSES →
     aia_status (self_after res) = status ∧
     same_except [A_aia_status; A_last_modified_date] self (self_after res)) ∧
  stdout res = [] ∧
  "draft" ∉ AIA_STATUSES.
Proof.
  cbv zeta. unfold AIA_STATUSES. run;
    [apply bool_decide_eq_true in Heqb | apply bool_decide_eq_false, dec_stable in Heqb].
  - split_and!.
    + split; [done | by eexists].
    + split; [discriminate | done].
    + reflexivity.
    + done.
    + reflexivity.
    + intros H. apply list_elem_of_In in H. cbn in H.
      repeat (destruct H as [H|H]; [discriminate H|]). exact H.
  - split_and!.
    + split; [intros [msg [=]] | done].
    + done.
    + done.
    + intros _. split; [reflexivity | frame].
    + reflexivity.
    + intros H. apply list_elem_of_In in H. cbn in H.
      repeat (destruct H as [H|H]; [discriminate H|]). exact H.
Qed.

(** X1 on a fresh record: Approved is taken, "draft" is refused. *)
Lemma X1_set_aia_status_witness :
  aia_status (self_after (set_aia_status "Approved" "2025-03-02T10:00:00" fresh_record)) = "Approved" ∧
  self_after (set_aia_status "draft" "2025-03-02T10:00:00" fresh_record) = fresh_record.
Proof.
  split.
  - apply (proj1 (proj2 (proj2 (proj2
             (X1_set_aia_status fresh_record "Approved" "2025-03-02T10:00:00"))))).
    apply list_elem_of_In. cbn. tauto.
  - apply (proj1 (proj2 (proj2 (X1_set_aia_status fresh_record "draft" "2025-03-02T10:00:00")))).
    apply (proj2 (proj2 (proj2 (proj2 (proj2
             (X1_set_aia_status fresh_record "draft" "2025-03-02T10:00:00")))))).
Defined.

(** ** Recomputation *)

Lemma assign_own_derived (self : AIA) :
  with_risk_category (risk_category self) (with_total_score (total_score self) self) = self.
Proof. by destruct self. Qed.

(** X3.  [_update_risk_assessment] returns on every object, also one whose
    derived attributes were written from outside: it leaves [total_score] the
    sum over the dimensions and [risk_category] its classification, changes
    nothing else, and running it a second time changes nothing.  On an
    object in a reachable state it changes nothing at all. *)
Theorem X3_update_risk_assessment (self : AIA) :
  let res := _update_risk_assessment self in
  outcome res = inr tt ∧
  stdout res = [] ∧
  total_score (self_after res) = computeTotal (dimensions self) ∧
  risk_category (self_after res) = classifyRisk (computeTotal (dimensions self)) ∧
  same_except [A_total_score; A_risk_category] self (self_after res) ∧
  self_after (_update_risk_assessment (self_after res)) = self_after res ∧
  (reachable self → self_after res = self).
Proof.
  cbv zeta. run.
  split_and!; try reflexivity.
  - frame.
  - intros (_ & Htotal & Hrisk)%reachable_scoring_inv.
    cbn [dimensions with_total_score total_score].
    rewrite <- Htotal, <- Hrisk. apply assign_own_derived.
Qed.

(** ** The risk category of a reachable object *)

(** X5.  In every state an object reaches, [risk_category] is the row of the
    table for the sum of the current dimension scores: it is never stale,
    its category is one of Low, Medium, High and Severe and never Undefined,
    and its action is the one of that row. *)
Theorem X5_risk_category_reachable (self : AIA) (Hreach : reachable self) :
  risk_category self = classifyRisk (canonical_sum (dimensions self)) ∧
  category (risk_category self) ∈ TABLE_CATEGORIES ∧
  Exists (λ row, 0 <= range_min row ∧ range_max row <= 65 ∧
                 range_min row <= total_score self <= range_max row ∧
                 risk_category self = Risk (ci_category row) (ci_action row))
    RISK_CATEGORIES.
Proof.
  pose proof (reachable_scoring_inv self Hreach) as (Hok & Htotal & Hrisk).
  pose proof (computeTotal_bounds _ Hok) as Hb. rewrite <- Htotal in Hb.
  rewrite <- (computeTotal_canonical _ (proj1 Hok)), <- Htotal.
  split; [exact Hrisk|]. rewrite Hrisk.
  destruct (Z_le_gt_dec (total_score self) 10);
    [|destruct (Z_le_gt_dec (total_score self) 25);
      [|destruct (Z_le_gt_dec (total_score self) 40)]].
  - rewrite classifyRisk_low by lia. split; [apply list_elem_of_In; cbn; tauto|].
    apply Exists_cons_hd. cbn. split_and!; try lia; reflexivity.
  - rewrite classifyRisk_medium by lia. split; [apply list_elem_of_In; cbn; tauto|].
    apply Exists_cons_tl, Exists_cons_hd. cbn. split_and!; try lia; reflexivity.
  - rewrite classifyRisk_high by lia. split; [apply list_elem_of_In; cbn; tauto|].
    do 2 apply Exists_cons_tl. apply Exists_cons_hd. cbn. split_and!; try lia; reflexivity.
  - rewrite classifyRisk_severe by lia. split; [apply list_elem_of_In; cbn; tauto|].
    do 3 apply Exists_cons_tl. apply Exists_cons_hd. cbn. split_and!; try lia; reflexivity.
Qed.

(** X5 on the record with the scores 3, 5 and 4: the category is Medium. *)
Lemma X5_risk_category_reachable_witness :
  risk_category scored_record = classifyRisk (canonical_sum (dimensions scored_record)) ∧
  category (risk_category scored_record) = "Medium".
Proof.
  split.
  - apply (proj1 (X5_risk_category_reachable scored_record reachable_scored_record)).
  - vm_compute. reflexivity.
Defined.

(** ** The status attributes through an object's life *)

Section Statuses.

Lemma status_inv_init sn an today t1 t2 : status_inv (__init__ sn an today t1 t2).
Proof.
  split_and!.
  - apply list_elem_of_In. cbn. tauto.
  - intros name Hin. apply list_elem_of_In in Hin. cbn in Hin.
    apply elem_of_dom. cbn [related_assessment_statuses __init__].
    destruct Hin as [<-|[<-|[<-|[]]]]; eexists; reflexivity.
  - intros name status. cbn [related_assessment_statuses __init__ list_to_map foldr uncurry fst snd].
    rewrite !lookup_insert, lookup_empty.
    repeat case_decide; intros [= <-]; apply list_elem_of_In; cbn; tauto.
Qed.

Lemma status_inv_frame (s s' : AIA) :
  aia_status s' = aia_status s →
  related_assessment_statuses s' = related_assessment_statuses s →
  status_inv s → status_inv s'.
Proof. unfold status_inv. intros -> ->. done. Qed.

Lemma status_inv_step (s s' : AIA) : step s s' → status_inv s → status_inv s'.
Proof.
  intros Hstep Hinv. destruct Hstep as [c uuid now self | self].
  - destruct c; run; cbn [fst snd];
      try (apply (status_inv_frame self); [reflexivity..|exact Hinv]);
      destruct Hinv as (Hst & Hpre & Hval).
    + (* set_aia_status, accepted *)
      apply bool_decide_eq_false, dec_stable in Heqb.
      split_and!; [exact Heqb | exact Hpre | exact Hval].
    + (* set_related_assessment_status, an unknown name *)
      apply bool_decide_eq_false, dec_stable in Heqb0.
      split_and!; [exact Hst | |]; cbn.
      * intros name Hin. rewrite dom_insert_L. apply elem_of_union_r. by apply Hpre.
      * intros name st. rewrite lookup_insert.
        destruct (decide (assessment_name = name)); [intros [=]; by subst st | apply Hval].
    + (* set_related_assessment_status, a known name *)
      apply bool_decide_eq_false, dec_stable in Heqb0.
      split_and!; [exact Hst | |]; cbn.
      * intros name Hin. rewrite dom_insert_L. apply elem_of_union_r. by apply Hpre.
      * intros name st. rewrite lookup_insert.
        destruct (decide (assessment_name = name)); [intros [=]; by subst st | apply Hval].
  - run. apply (status_inv_frame self); [reflexivity..|exact Hinv].
Qed.

Lemma reachable_status_inv (self : AIA) : reachable self → status_inv self.
Proof.
  intros (sn & an & today & t1 & t2 & Hrtc).
  eapply (rtc_ind_r (λ s, status_inv s)); [| |exact Hrtc].
  - apply status_inv_init.
  - intros s s' _ Hstep Hinv. by eapply status_inv_step.
Qed.

End Statuses.

(** X8.  In every state an object reaches, [aia_status] is one of the five
    allowed statuses, the three predefined related assessments are keys of
    [related_assessment_statuses], and every status in that mapping is one
    of the four allowed ones.  No call removes a name from the mapping. *)
Theorem X8_status_invariant (self : AIA) (Hreach : reachable self) :
  aia_status self ∈ AIA_STATUSES ∧
  (∀ name, name ∈ PREDEFINED_ASSESSMENTS →
     ∃ status, related_assessment_statuses self !! name = Some status ∧
               status ∈ RELATED_STATUSES) ∧
  (∀ name status,
     related_assessment_statuses self !! name = Some status → status ∈ RELATED_STATUSES) ∧
  (∀ c uuid now,
     dom (related_assessment_statuses self)
       ⊆ dom (related_assessment_statuses (perform c uuid now self).2)).
Proof.
  pose proof (reachable_status_inv self Hreach) as (Hst & Hpre & Hval).
  split_and!.
  - exact Hst.
  - intros name Hin. destruct (proj1 (elem_of_dom _ _) (Hpre name Hin)) as [st Hs].
    exists st. split; [exact Hs | by apply (Hval name)].
  - exact Hval.
  - intros c uuid now. destruct c; run; cbn [fst snd]; try reflexivity.
    all: cbn; rewrite dom_insert_L; apply union_subseteq_r.
Qed.

(** X8 on the record with three scores entered: its status is an allowed one. *)
Lemma X8_status_invariant_witness : aia_status scored_record ∈ AIA_STATUSES.
Proof. apply (proj1 (X8_status_invariant scored_record reachable_scored_record)). Defined.

(** ** Calls that raise *)

Section Raising.

Lemma filter_same_length {A} (P : A → Prop) `{!∀ x, Decision (P x)} (l : list A) :
  length (filter P l) = length l → filter P l = l.
Proof.
  induction l as [|x l IH]; [reflexivity|].
  rewrite filter_cons. case_decide as Hx; cbn.
  - intros [= Hlen]. by rewrite IH.
  - intros Hlen. pose proof (length_filter P l). lia.
Qed.

(** A removal that finds nothing hands the plan back as it was. *)
Lemma remove_mitigation_item_raises (item_id now : string) (self : AIA) :
  plan_ok (mitigation_plan self) →
  ∀ e, outcome (remove_mitigation_item item_id now self) = inl e →
       self_after (remove_mitigation_item item_id now self) = self ∧
       e = ValueError ("Mitigation item with ID " +:+ item_id +:+ " not found.").
Proof.
  intros Hok e. rewrite remove_mitigation_item_run, items_without_spec by exact Hok.
  case_bool_decide as Hlen; cbn; [|discriminate].
  intros [= <-]. split; [|reflexivity].
  rewrite (filter_same_length _ _ Hlen). apply assign_own_plan.
Qed.

Lemma update_mitigation_item_raises (item_id : string) (updates : gmap string string)
    (now : string) (self : AIA) :
  plan_ok (mitigation_plan self) →
  ∀ e, outcome (update_mitigation_item item_id updates now self) = inl e →
       self_after (update_mitigation_item item_id updates now self) = self ∧
       e = ValueError ("Mitigation item with ID " +:+ item_id +:+ " not found.").
Proof.
  intros Hok e. rewrite update_mitigation_item_run.
  destruct (update_loop_spec item_id updates _ Hok)
    as [[_ ->] | (l1 & it & l2 & _ & _ & _ & ->)]; cbn; [|discriminate].
  intros [= <-]. split; [apply assign_own_plan | reflexivity].
Qed.

End Raising.

(** X7.  On an object in a reachable state, a public mutating call that
    raises leaves the object exactly as it was, and what it raises is a
    [ValueError]: no call fails half-way, and no [KeyError] escapes from
    the mitigation plan. *)
Theorem X7_raising_call_changes_nothing (self : AIA) (Hreach : reachable self)
    (c : call) (uuid now : string) (e : exn)
    (Hraise : (perform c uuid now self).1 = Some e) :
  (perform c uuid now self).2 = self ∧ ∃ msg, e = ValueError msg.
Proof.
  pose proof (reachable_plan_ok self Hreach) as Hok.
  destruct c.
  5: { (* update_mitigation_item *)
    cbn [perform] in *. unfold effect in *. cbn [fst snd] in *.
    destruct (outcome (update_mitigation_item item_id updates now self)) as [e'|] eqn:He;
      [|discriminate].
    injection Hraise as ->.
    destruct (update_mitigation_item_raises item_id updates now self Hok e He) as [-> ->].
    split; [reflexivity | by eexists]. }
  5: { (* remove_mitigation_item *)
    cbn [perform] in *. unfold effect in *. cbn [fst snd] in *.
    destruct (outcome (remove_mitigation_item item_id now self)) as [e'|] eqn:He;
      [|discriminate].
    injection Hraise as ->.
    destruct (remove_mitigation_item_raises item_id now self Hok e He) as [-> ->].
    split; [reflexivity | by eexists]. }
  all: revert Hraise; run; cbn [fst snd]; intros Hraise; try discriminate Hraise.
  all: try match goal with
           | H : getitem _ "id" = inl _ |- _ =>
               unfold getitem in H; cbn [list_to_map foldr uncurry fst snd] in H;
               rewrite lookup_insert_eq in H; discriminate H
           end.
  all: injection Hraise as <-.
  all: split; [reflexivity | by eexists].
Qed.

(** X7 on a fresh record: removing an item that is not there raises and
    changes nothing. *)
Lemma X7_raising_call_changes_nothing_witness :
  (perform (Call_remove_mitigation_item "9f1c2d3e") "" "2025-03-02T10:00:00" fresh_record).2
    = fresh_record.
Proof.
  apply (X7_raising_call_changes_nothing fresh_record
           (reachable_init (Some "Benefits Triage") (Some "Dept X") "2025-03-01"
              "2025-03-01T08:00:00" "2025-03-01T08:00:00")
           (Call_remove_mitigation_item "9f1c2d3e") "" "2025-03-02T10:00:00"
           (ValueError "Mitigation item with ID 9f1c2d3e not found.")).
  vm_compute. reflexivity.
Defined.

(** ** Removing and updating items *)

Section PlanEdits.

Lemma filter_keeps_all {A} (P : A → Prop) `{!∀ x, Decision (P x)} (l : list A) :
  Forall P l → filter P l = l.
Proof.
  induction 1 as [|x l Hx _ IH]; [reflexivity|].
  rewrite filter_cons, decide_True by exact Hx. by rewrite IH.
Qed.

Lemma Forall_filter_self {A} (P : A → Prop) `{!∀ x, Decision (P x)} (l : list A) :
  Forall P (filter P l).
Proof. apply Forall_forall. by intros x [Hx _]%list_elem_of_filter. Qed.

Lemma some_item_has_id (item_id : string) (plan : list (gmap string string)) :
  ¬ Forall (λ item, ¬ has_id item_id item) plan → Exists (has_id item_id) plan.
Proof.
  intros Hnot. apply not_Forall_Exists in Hnot; [|apply _].
  eapply Exists_impl; [exact Hnot|]. intros item Hnn. cbn in Hnn. by apply dec_stable.
Qed.

Lemma no_item_has_id (item_id : string) (plan : list (gmap string string)) :
  Forall (λ item, ¬ has_id item_id item) plan → ¬ Exists (has_id item_id) plan.
Proof.
  intros Hall (item & Hin & Hid)%Exists_exists.
  by apply (proj1 (Forall_forall _ _) Hall item Hin).
Qed.

(** The loop finds the first item that has the identifier. *)
Lemma update_loop_first (item_id : string) (updates : gmap string string)
    (l1 : list (gmap string string)) (item : gmap string string)
    (l2 : list (gmap string string)) :
  plan_ok l1 → Forall (λ item, ¬ has_id item_id item) l1 → has_id item_id item →
  update_loop item_id updates (l1 ++ item :: l2)
    = inr (true, l1 ++ dict_update item updates :: l2).
Proof.
  intros Hok Hno Hid. induction Hok as [|x l1 [i Hi] _ IH]; cbn [app update_loop].
  - unfold getitem. rewrite Hid. by rewrite bool_decide_eq_true_2.
  - apply Forall_cons in Hno as [Hx Hno]. unfold getitem at 1. rewrite Hi.
    rewrite bool_decide_eq_false_2 by (unfold has_id in Hx; congruence).
    by rewrite IH.
Qed.

Lemma plan_ids_app (l k : list (gmap string string)) :
  plan_ids (l ++ k) = plan_ids l ++ plan_ids k.
Proof. apply omap_app. Qed.

Lemma plan_ids_length (plan : list (gmap string string)) :
  plan_ok plan → length (plan_ids plan) = length plan.
Proof.
  induction 1 as [|x l [i Hi] _ IH]; [reflexivity|].
  unfold plan_ids in *. cbn. rewrite Hi. cbn. by rewrite IH.
Qed.

Lemma plan_ids_filter (item_id : string) (plan : list (gmap string string)) :
  plan_ids (filter (λ item, ¬ has_id item_id item) plan)
    = filter (λ i, i ≠ item_id) (plan_ids plan).
Proof.
  induction plan as [|x l IH]; [reflexivity|].
  rewrite filter_cons. unfold plan_ids in *.
  destruct (decide (¬ has_id item_id x)) as [Hno|Hyes].
  - cbn [omap list_omap]. destruct (x !! "id") as [i|] eqn:Hi; [|exact IH].
    rewrite filter_cons, decide_True, IH; [reflexivity|].
    intros ->. by apply Hno.
  - apply dec_stable in Hyes. cbn [omap list_omap]. rewrite Hyes.
    rewrite filter_cons, decide_False by (intros H; by apply H). exact IH.
Qed.

Lemma filter_out_one (item_id : string) (ids : list string) :
  NoDup ids → item_id ∈ ids →
  (length (filter (λ i, i ≠ item_id) ids) + 1)%nat = length ids.
Proof.
  induction 1 as [|i ids Hi Hnd IH]; [by intros ?%elem_of_nil|].
  rewrite filter_cons. intros [->|Hin]%elem_of_cons.
  - rewrite decide_False by (intros H; by apply H).
    rewrite filter_keeps_all; [cbn; lia|].
    apply Forall_forall. intros j Hj ->. by apply Hi.
  - rewrite decide_True by (intros ->; by apply Hi). cbn. rewrite <- (IH Hin). lia.
Qed.

End PlanEdits.

(** X2.  On an object in a reachable state, [remove_mitigation_item]
    raises [ValueError] exactly when no item of the plan has the identifier,
    and then leaves the object as it was; otherwise it returns, and the plan
    is the old one without the items that have the identifier, the others in
    their order and untouched, nothing else changing but
    [last_modified_date].  Afterwards no item has the identifier. *)
Theorem X2_remove_mitigation_item (self : AIA) (Hreach : reachable self)
    (item_id now : string) :
  let res := remove_mitigation_item item_id now self in
  ((∃ msg, outcome res = inl (ValueError msg))
     ↔ Forall (λ item, ¬ has_id item_id item) (mitigation_plan self)) ∧
  (outcome res = inr true ↔ Exists (has_id item_id) (mitigation_plan self)) ∧
  (Forall (λ item, ¬ has_id item_id item) (mitigation_plan self) → self_after res = self) ∧
  mitigation_plan (self_after res)
    = filter (λ item, ¬ has_id item_id item) (mitigation_plan self) ∧
  (Exists (has_id item_id) (mitigation_plan self) →
     same_except [A_mitigation_plan; A_last_modified_date] self (self_after res)) ∧
  Forall (λ item, ¬ has_id item_id item) (mitigation_plan (self_after res)).
Proof.
  pose proof (reachable_plan_ok self Hreach) as Hok.
  cbv zeta. rewrite remove_mitigation_item_run, items_without_spec by exact Hok.
  case_bool_decide as Hlen; cbn [outcome self_after].
  - (* nothing was removed *)
    pose proof (filter_same_length _ _ Hlen) as Hsame.
    assert (Hall : Forall (λ item, ¬ has_id item_id item) (mitigation_plan self))
      by (rewrite <- Hsame; apply Forall_filter_self).
    split_and!.
    + split; [done | by eexists].
    + split; [discriminate | intros Hex; by destruct (no_item_has_id _ _ Hall)].
    + intros _. rewrite Hsame. apply assign_own_plan.
    + reflexivity.
    + intros Hex. by destruct (no_item_has_id _ _ Hall).
    + cbn. apply Forall_filter_self.
  - (* something was removed *)
    assert (Hex : Exists (has_id item_id) (mitigation_plan self)).
    { apply some_item_has_id. intros Hall. apply Hlen. by rewrite filter_keeps_all. }
    split_and!.
    + split; [intros [msg [=]] | intros Hall; by destruct (no_item_has_id _ _ Hall)].
    + done.
    + intros Hall. by destruct (no_item_has_id _ _ Hall).
    + reflexivity.
    + intros _. frame.
    + cbn. apply Forall_filter_self.
Qed.

(** X2 on the record with one item: removing it empties the plan. *)
Lemma X2_remove_mitigation_item_witness :
  mitigation_plan
    (self_after (remove_mitigation_item "9f1c2d3e" "2025-03-03T09:00:00" planned_record)) = [].
Proof.
  rewrite (proj1 (proj2 (proj2 (proj2
             (X2_remove_mitigation_item planned_record
                (reachable_perform _ _ _ _
                   (reachable_init (Some "Benefits Triage") (Some "Dept X") "2025-03-01"
                      "2025-03-01T08:00:00" "2025-03-01T08:00:00"))
                "9f1c2d3e" "2025-03-03T09:00:00"))))).
  vm_compute. reflexivity.
Defined.

(** X6.  Adding an item under an identifier that no item of the plan has,
    and then removing that identifier, gives the plan back as it was: the
    removal returns, and nothing differs from the object before the two
    calls but [last_modified_date]. *)
Theorem X6_add_then_remove (self : AIA) (Hreach : reachable self)
    (dimension risk_score_desc action' responsible target_date : string)
    (status : option string) (uuid now now' : string)
    (Hfresh : Forall (λ item, ¬ has_id uuid item) (mitigation_plan self)) :
  let added := self_after (add_mitigation_item dimension risk_score_desc action' responsible
                             target_date status uuid now self) in
  let res := remove_mitigation_item uuid now' added in
  outcome res = inr true ∧
  mitigation_plan (self_after res) = mitigation_plan self ∧
  same_except [A_last_modified_date] self (self_after res) ∧
  last_modified_date (self_after res) = now'.
Proof.
  cbv zeta.
  assert (Hok : plan_ok (mitigation_plan
            (self_after (add_mitigation_item dimension risk_score_desc action' responsible
                           target_date status uuid now self)))).
  { apply (reachable_plan_ok
             (perform (Call_add_mitigation_item dimension risk_score_desc action' responsible
                         target_date status) uuid now self).2).
    by apply reachable_perform. }
  rewrite remove_mitigation_item_run, items_without_spec by exact Hok. clear Hok.
  unfold_methods. cbn [mitigation_plan with_mitigation_plan with_last_modified_date].
  rewrite filter_app, (filter_keeps_all _ _ Hfresh), filter_cons_False, filter_nil, app_nil_r
    by (intros H; by apply H).
  rewrite bool_decide_eq_false_2 by (rewrite length_app; cbn; lia).
  cbn [outcome self_after]. split_and!; try reflexivity.
  frame.
Qed.

(** X6 on a fresh record: the item added as [9f1c2d3e] and removed again
    leaves an empty plan. *)
Lemma X6_add_then_remove_witness :
  mitigation_plan
    (self_after (remove_mitigation_item "9f1c2d3e" "2025-03-03T09:00:00"
       (self_after (add_mitigation_item "Bias and Fairness" "Residual bias risk (Score=4)"
                      "Annual external fairness audit" "AI Governance" "2025-08-30" None
                      "9f1c2d3e" "2025-03-02T11:00:00" fresh_record))))
    = mitigation_plan fresh_record.
Proof.
  apply (X6_add_then_remove fresh_record
           (reachable_init (Some "Benefits Triage") (Some "Dept X") "2025-03-01"
              "2025-03-01T08:00:00" "2025-03-01T08:00:00")).
  constructor.
Defined.

(** X9.  The identifiers of the plan of an object in a reachable state:
    every item has one; [add_mitigation_item] puts the drawn identifier at
    the end; [update_mitigation_item] leaves the identifiers as they are
    when ['id'] is not among the updates; [remove_mitigation_item] leaves
    the identifiers other than the one removed, and takes out exactly one
    item when the identifiers are distinct and the one removed is there. *)
Theorem X9_plan_identifiers (self : AIA) (Hreach : reachable self) (now : string) :
  length (plan_ids (mitigation_plan self)) = length (mitigation_plan self) ∧
  (∀ dimension risk_score_desc action' responsible target_date status uuid,
     plan_ids (mitigation_plan
                 (self_after (add_mitigation_item dimension risk_score_desc action'
                                responsible target_date status uuid now self)))
       = plan_ids (mitigation_plan self) ++ [uuid]) ∧
  (∀ item_id updates,
     updates !! "id" = None →
     plan_ids (mitigation_plan (self_after (update_mitigation_item item_id updates now self)))
       = plan_ids (mitigation_plan self)) ∧
  (∀ item_id,
     plan_ids (mitigation_plan (self_after (remove_mitigation_item item_id now self)))
       = filter (λ i, i ≠ item_id) (plan_ids (mitigation_plan self))) ∧
  (∀ item_id,
     NoDup (plan_ids (mitigation_plan self)) → item_id ∈ plan_ids (mitigation_plan self) →
     (length (mitigation_plan (self_after (remove_mitigation_item item_id now self))) + 1)%nat
       = length (mitigation_plan self)).
Proof.
  pose proof (reachable_plan_ok self Hreach) as Hok.
  assert (Hremoved : ∀ item_id,
            mitigation_plan (self_after (remove_mitigation_item item_id now self))
              = filter (λ item, ¬ has_id item_id item) (mitigation_plan self)).
  { intros item_id. rewrite remove_mitigation_item_run, items_without_spec by exact Hok.
    by case_bool_decide. }
  split_and!.
  - by apply plan_ids_length.
  - intros dimension risk_score_desc action' responsible target_date status uuid.
    unfold_methods. cbn [mitigation_plan with_mitigation_plan with_last_modified_date].
    rewrite plan_ids_app. f_equal.
  - intros item_id updates Hnoid. rewrite update_mitigation_item_run.
    destruct (update_loop_spec item_id updates _ Hok)
      as [[_ ->] | (l1 & it & l2 & Hplan & _ & _ & ->)]; cbn; [reflexivity|].
    rewrite Hplan, !plan_ids_app. f_equal. unfold plan_ids. cbn [omap list_omap].
    by rewrite dict_update_lookup, Hnoid.
  - intros item_id. rewrite Hremoved. apply plan_ids_filter.
  - intros item_id Hnd Hin.
    assert (Hok' : plan_ok (mitigation_plan (self_after (remove_mitigation_item item_id now self)))).
    { rewrite Hremoved. by apply Forall_filter_keep. }
    rewrite <- (plan_ids_length _ Hok'), <- (plan_ids_length _ Hok), Hremoved, plan_ids_filter.
    by apply filter_out_one.
Qed.

(** X9 on the record with one item: its identifiers are the one drawn. *)
Lemma X9_plan_identifiers_witness :
  length (plan_ids (mitigation_plan planned_record)) = length (mitigation_plan planned_record) ∧
  plan_ids (mitigation_plan planned_record) = ["9f1c2d3e"].
Proof.
  split.
  - apply (proj1 (X9_plan_identifiers planned_record
                    (reachable_perform _ _ _ _
                       (reachable_init (Some "Benefits Triage") (Some "Dept X") "2025-03-01"
                          "2025-03-01T08:00:00" "2025-03-01T08:00:00"))
                    "2025-03-03T09:00:00")).
  - vm_compute. reflexivity.
Defined.

(** X10.  Two updates of the same identifier accumulate: when the first
    does not touch ['id'], the plan after the two calls is the plan after
    one call with the fields of the first overwritten by those of the
    second, and the second call returns or raises as that one call does. *)
Theorem X10_updates_accumulate (self : AIA) (Hreach : reachable self)
    (item_id : string) (first second : gmap string string) (now now' : string)
    (Hnoid : first !! "id" = None) :
  let once := update_mitigation_item item_id (dict_update first second) now' self in
  let twice := update_mitigation_item item_id second now'
                 (self_after (update_mitigation_item item_id first now self)) in
  mitigation_plan (self_after twice) = mitigation_plan (self_after once) ∧
  outcome twice = outcome once.
Proof.
  pose proof (reachable_plan_ok self Hreach) as Hok.
  cbv zeta. rewrite !update_mitigation_item_run.
  destruct (update_loop_spec item_id first _ Hok)
    as [[Hnone Hfirst] | (l1 & it & l2 & Hplan & Hl1 & Hit & Hfirst)]; rewrite Hfirst.
  - (* no item has the identifier *)
    cbn [self_after]. rewrite assign_own_plan.
    destruct (update_loop_spec item_id second _ Hok)
      as [[_ ->] | (l1 & it & l2 & Hplan & _ & Hit & _)].
    + destruct (update_loop_spec item_id (dict_update first second) _ Hok)
        as [[_ ->] | (l1 & it & l2 & Hplan & _ & Hit & _)]; [by split|].
      exfalso. apply (no_item_has_id _ _ Hnone). rewrite Hplan.
      apply Exists_app. right. by apply Exists_cons_hd.
    + exfalso. apply (no_item_has_id _ _ Hnone). rewrite Hplan.
      apply Exists_app. right. by apply Exists_cons_hd.
  - (* the first item that has it *)
    cbn [self_after mitigation_plan with_mitigation_plan with_last_modified_date].
    assert (Hok1 : plan_ok l1).
    { rewrite Hplan in Hok. by apply Forall_app in Hok as [? _]. }
    rewrite (update_loop_first item_id second l1 (dict_update it first) l2 Hok1 Hl1)
      by (unfold has_id; by rewrite dict_update_lookup, Hnoid).
    rewrite Hplan,
      (update_loop_first item_id (dict_update first second) l1 it l2 Hok1 Hl1 Hit).
    cbn. split; [|reflexivity]. do 2 f_equal.
    unfold dict_update. by rewrite (assoc_L (∪)).
Qed.

(** X10 on the record with one item: a status, then a date. *)
Lemma X10_updates_accumulate_witness :
  mitigation_plan
    (self_after
       (update_mitigation_item "9f1c2d3e" {["target_date" := "2025-09-30"]} "2025-03-04T09:00:00"
          (self_after
             (update_mitigation_item "9f1c2d3e" {["status" := "In Progress"]}
                "2025-03-03T09:00:00" planned_record))))
  = mitigation_plan
      (self_after
         (update_mitigation_item "9f1c2d3e"
            (dict_update {["status" := "In Progress"]} {["target_date" := "2025-09-30"]})
            "2025-03-04T09:00:00" planned_record)).
Proof.
  apply (X10_updates_accumulate planned_record
           (reachable_perform _ _ _ _
              (reachable_init (Some "Benefits Triage") (Some "Dept X") "2025-03-01"
                 "2025-03-01T08:00:00" "2025-03-01T08:00:00"))
           "9f1c2d3e" {["status" := "In Progress"]} {["target_date" := "2025-09-30"]}
           "2025-03-03T09:00:00" "2025-03-04T09:00:00").
  reflexivity.
Defined.

(** ** Scores, one call after another *)

Section ScoreWrites.

(** [set_dimension_score] in closed form. *)
Lemma set_dimension_score_after (d : string) (sc : pyval) (j : option string) (now : string)
    (self : AIA) :
  self_after (set_dimension_score d sc j now self)
    = match accepted_score (dimensions self) d sc with
      | Some n => with_score d n (default "" j) now self
      | None => self
      end ∧
  (outcome (set_dimension_score d sc j now self) = inr tt
     ↔ is_Some (accepted_score (dimensions self) d sc)).
Proof.
  unfold accepted_score, with_score. run;
    repeat match goal with
           | H : bool_decide _ = true |- _ => apply bool_decide_eq_true in H
           | H : bool_decide _ = false |- _ => apply bool_decide_eq_false, dec_stable in H
           | H : negb _ = true |- _ => apply negb_true_iff in H
           | H : negb _ = false |- _ => apply negb_false_iff in H
           end.
  - rewrite bool_decide_eq_false_2 by exact Heqb. split; [reflexivity|].
    split; [discriminate | by intros [? [=]]].
  - rewrite bool_decide_eq_true_2 by exact Heqb. rewrite Heqb0. split; [reflexivity|].
    split; [discriminate | by intros [? [=]]].
  - rewrite bool_decide_eq_true_2 by exact Heqb. rewrite Heqb0. cbv zeta.
    cbn [dimensions with_dimensions with_total_score total_score].
    rewrite dimensions_after_write by exact Heqb. split; [reflexivity|].
    split; [by eexists | reflexivity].
  - rewrite bool_decide_eq_true_2 by exact Heqb. split; [reflexivity|].
    split; [discriminate | by intros [? [=]]].
Qed.

Lemma accepted_score_spec (dims : gmap string dim_entry) (d : string) (sc : pyval) (n : Z) :
  accepted_score dims d sc = Some n ↔ d ∈ dom dims ∧ as_int sc = Some n ∧ 0 <= n <= 5.
Proof.
  unfold accepted_score. case_bool_decide as Hd.
  - destruct (as_int sc) as [m|]; [|split; [discriminate | by intros (_ & [=] & _)]].
    destruct ((0 <=? m) && (m <=? 5)) eqn:Hm.
    + apply andb_true_iff in Hm as [H0 H5]. apply Z.leb_le in H0, H5. split.
      * intros [= <-]. done.
      * by intros (_ & [= <-] & _).
    + apply andb_false_iff in Hm. split; [discriminate|].
      intros (_ & [= <-] & Hn). destruct Hm as [H|H]; apply Z.leb_gt in H; lia.
  - split; [discriminate | by intros (? & _)].
Qed.

(** A stored score does not change which names are keys, so it does not
    change what a later call accepts. *)
Lemma accepted_score_with_score (d : string) (n : Z) (j now : string) (self : AIA)
    (d' : string) (sc : pyval) :
  d ∈ dom (dimensions self) →
  accepted_score (dimensions (with_score d n j now self)) d' sc
    = accepted_score (dimensions self) d' sc.
Proof.
  intros Hd. unfold accepted_score, with_score. cbn.
  rewrite dom_insert_L, (subseteq_union_1_L {[d]} _) by by apply singleton_subseteq_l.
  reflexivity.
Qed.

Lemma sum_scores_insert (dims : gmap string dim_entry) (d : string) (e : dim_entry)
    (l : list string) :
  NoDup l →
  foldr (λ dim acc, score_of (<[d := e]> dims) dim + acc) 0 l
    = foldr (λ dim acc, score_of dims dim + acc) 0 l
      + (if decide (d ∈ l) then score e - score_of dims d else 0).
Proof.
  induction 1 as [|k l Hk _ IH]; cbn [foldr].
  - rewrite decide_False by apply not_elem_of_nil. lia.
  - rewrite IH. unfold score_of. rewrite lookup_insert.
    destruct (decide (d ∈ k :: l)) as [Hin|Hnin];
      destruct (decide (d ∈ l)) as [Hl|Hl];
      destruct (decide (d = k)) as [->|Hne]; cbn; try lia; exfalso.
    + by apply Hk.
    + apply elem_of_cons in Hin as [?|?]; done.
    + apply Hnin. apply list_elem_of_here.
    + apply Hnin. by apply list_elem_of_further.
    + apply Hnin. apply list_elem_of_here.
Qed.

Lemma canonical_sum_insert (dims : gmap string dim_entry) (d : string) (e : dim_entry) :
  d ∈ DIMENSIONS →
  canonical_sum (<[d := e]> dims) = canonical_sum dims - score_of dims d + score e.
Proof.
  intros Hd. unfold canonical_sum.
  rewrite (sum_scores_insert dims d e DIMENSIONS NoDup_DIMENSIONS), decide_True by exact Hd.
  lia.
Qed.

End ScoreWrites.

(** X4.  On an object in a reachable state, an accepted
    [set_dimension_score] moves [total_score] by exactly the difference
    between the new score and the one the dimension had: the total never
    drifts from the scores, it rises when the score rises and falls when it
    falls. *)
Theorem X4_total_moves_by_the_difference (self : AIA) (Hreach : reachable self)
    (d : string) (sc : pyval) (j : option string) (now : string) (n : Z)
    (Hd : d ∈ DIMENSIONS) (Hsc : as_int sc = Some n) (Hn : 0 <= n <= 5) :
  let self' := self_after (set_dimension_score d sc j now self) in
  total_score self' = total_score self - score_of (dimensions self) d + n ∧
  (score_of (dimensions self) d <= n ↔ total_score self <= total_score self') ∧
  score_of (dimensions self') d = n.
Proof.
  cbv zeta.
  pose proof (reachable_scoring_inv self Hreach) as ((Hdom & Hscores) & Htotal & _).
  assert (Hin : d ∈ dom (dimensions self)) by by apply canonical_dom.
  rewrite (proj1 (set_dimension_score_after d sc j now self)).
  rewrite (proj2 (accepted_score_spec _ d sc n)) by done.
  unfold with_score. cbn [total_score dimensions with_dimensions with_total_score
                            with_risk_category with_last_modified_date].
  rewrite computeTotal_canonical, canonical_sum_insert, Htotal, computeTotal_canonical
    by (done || (rewrite dom_insert_L, <- Hdom; apply subseteq_union_1_L;
                 by apply singleton_subseteq_l)).
  cbn [score]. split_and!; [lia | lia |].
  unfold score_of. by rewrite lookup_insert_eq.
Qed.

(** X4 on the record with the scores 3, 5 and 4: lowering "Privacy Risk"
    from 5 to 2 brings the total from 12 to 9. *)
Lemma X4_total_moves_by_the_difference_witness :
  total_score
    (self_after (set_dimension_score "Privacy Risk" (PyInt 2) None "2025-03-02T11:00:00"
                   scored_record))
  = total_score scored_record - score_of (dimensions scored_record) "Privacy Risk" + 2.
Proof.
  apply (X4_total_moves_by_the_difference scored_record reachable_scored_record
           "Privacy Risk" (PyInt 2) None "2025-03-02T11:00:00" 2).
  - apply list_elem_of_In. cbn. tauto.
  - reflexivity.
  - lia.
Defined.

(** X11.  Two [set_dimension_score] calls on different dimensions can be
    made in either order: whatever their arguments, accepted or refused, the
    two orders leave the same object up to [last_modified_date].  Two calls
    on the same dimension, the second accepted, leave the dimensions and the
    derived attributes as the second call alone does. *)
Theorem X11_scores_commute (self : AIA) (d1 d2 : string) (s1 s2 : pyval)
    (j1 j2 : option string) (now now' : string) :
  (d1 ≠ d2 →
   same_except [A_last_modified_date]
     (self_after (set_dimension_score d2 s2 j2 now'
                    (self_after (set_dimension_score d1 s1 j1 now self))))
     (self_after (set_dimension_score d1 s1 j1 now'
                    (self_after (set_dimension_score d2 s2 j2 now self))))) ∧
  (is_Some (accepted_score (dimensions self) d1 s2) →
   self_after (set_dimension_score d1 s2 j2 now'
                 (self_after (set_dimension_score d1 s1 j1 now self)))
     = self_after (set_dimension_score d1 s2 j2 now' self)).
Proof.
  split.
  - intros Hne.
    rewrite (proj1 (set_dimension_score_after d1 s1 j1 now self)),
            (proj1 (set_dimension_score_after d2 s2 j2 now self)).
    destruct (accepted_score (dimensions self) d1 s1) as [n1|] eqn:H1;
      destruct (accepted_score (dimensions self) d2 s2) as [n2|] eqn:H2;
      rewrite !(proj1 (set_dimension_score_after _ _ _ _ _));
      rewrite ?accepted_score_with_score
        by (eapply (proj1 (accepted_score_spec _ _ _ _)); eassumption);
      rewrite ?H1, ?H2.
    + unfold with_score.
      cbn [dimensions with_dimensions with_total_score with_risk_category
             with_last_modified_date].
      rewrite (insert_insert_ne (dimensions self) d2 d1) by done.
      frame.
    + frame.
    + frame.
    + frame.
  - intros [n2 H2].
    rewrite (proj1 (set_dimension_score_after d1 s1 j1 now self)).
    destruct (accepted_score (dimensions self) d1 s1) as [n1|] eqn:H1; [|reflexivity].
    rewrite !(proj1 (set_dimension_score_after _ _ _ _ _)).
    rewrite accepted_score_with_score
      by (eapply (proj1 (accepted_score_spec _ _ _ _)); eassumption).
    rewrite H2. unfold with_score.
    cbn [dimensions with_dimensions with_total_score with_risk_category
           with_last_modified_date].
    rewrite insert_insert_eq. reflexivity.
Qed.

(** X11 on a fresh record: "Privacy Risk" 4 and "Human Impact" 2 in either
    order give the same total. *)
Lemma X11_scores_commute_witness :
  total_score
    (self_after (set_dimension_score "Human Impact" (PyInt 2) None "2025-03-02T10:01:00"
       (self_after (set_dimension_score "Privacy Risk" (PyInt 4) None "2025-03-02T10:00:00"
                      fresh_record))))
  = total_score
      (self_after (set_dimension_score "Privacy Risk" (PyInt 4) None "2025-03-02T10:01:00"
         (self_after (set_dimension_score "Human Impact" (PyInt 2) None "2025-03-02T10:00:00"
                        fresh_record)))).
Proof.
  apply (proj1 (X11_scores_commute fresh_record "Privacy Risk" "Human Impact" (PyInt 4) (PyInt 2)
                  None None "2025-03-02T10:00:00" "2025-03-02T10:01:00")
           ltac:(discriminate) A_total_score).
  intros H. apply list_elem_of_In in H. cbn in H. destruct H as [H|[]]. discriminate H.
Defined.

(** ** Adding an item *)

(** X21.  [add_mitigation_item] takes any text as dimension, canonical or
    not, and always returns: the plan is the old one followed by one item
    that holds the seven fields as given, the status Planned when none is
    given, and nothing else changes but [last_modified_date]. *)
Theorem X21_add_mitigation_item (self : AIA)
    (dimension risk_score_desc action' responsible target_date : string)
    (status : option string) (uuid now : string) :
  let res := add_mitigation_item dimension risk_score_desc action' responsible target_date
               status uuid now self in
  outcome res = inr uuid ∧
  stdout res = [] ∧
  same_except [A_mitigation_plan; A_last_modified_date] self (self_after res) ∧
  length (mitigation_plan (self_after res)) = S (length (mitigation_plan self)) ∧
  (∀ i item, mitigation_plan self !! i = Some item →
             mitigation_plan (self_after res) !! i = Some item) ∧
  ∃ item,
    mitigation_plan (self_after res) !! length (mitigation_plan self) = Some item ∧
    dom item = list_to_set ["id"; "dimension"; "risk_score_desc"; "action"; "responsible";
                            "target_date"; "status"] ∧
    item !! "id" = Some uuid ∧
    item !! "dimension" = Some dimension ∧
    item !! "risk_score_desc" = Some risk_score_desc ∧
    item !! "action" = Some action' ∧
    item !! "responsible" = Some responsible ∧
    item !! "target_date" = Some target_date ∧
    item !! "status" = Some (default "Planned" status).
Proof.
  cbv zeta. unfold_methods.
  cbn [mitigation_plan with_mitigation_plan with_last_modified_date].
  split_and!.
  - unfold getitem. cbn [list_to_map foldr uncurry fst snd]. by rewrite lookup_insert_eq.
  - reflexivity.
  - frame.
  - rewrite length_app. cbn. lia.
  - intros i item Hi. by apply lookup_app_l_Some.
  - eexists. split; [apply list_lookup_middle; reflexivity|].
    cbn [list_to_map foldr uncurry fst snd]. split.
    + rewrite !dom_insert_L, dom_empty_L. cbn [list_to_set foldr]. reflexivity.
    + split_and!;
        repeat first [rewrite lookup_insert_eq; reflexivity
                     | rewrite lookup_insert_ne by discriminate].
Qed.

(** ** The user store *)

Section UserStore.

Lemma save_keeps_manager (io : write_outcome) (self : AuthManager) :
  manager_after (_save_users io self) = self ∧
  (returned (_save_users io self) = true ↔ io = Written).
Proof. destruct io; cbn; split; try reflexivity; split; done. Qed.

Lemma user_has_permission_lookup (email' permission : string) (self : AuthManager) :
  user_has_permission email' permission self = true ↔
  ∃ user perms,
    get_user email' self = Some user ∧ ROLE_PERMISSIONS !! role user = Some perms ∧
    permission ∈ perms.
Proof.
  unfold user_has_permission. destruct (get_user email' self) as [user|]; cycle 1.
  { split; [discriminate | by intros (? & ? & [=] & _)]. }
  rewrite has_permission_lookup, bool_decide_eq_true. split.
  - destruct (ROLE_PERMISSIONS !! role user) as [perms|] eqn:E; cbn.
    + intros Hp. by exists user, perms.
    + by intros ?%elem_of_nil.
  - intros (u & perms & [= <-] & -> & Hp). exact Hp.
Qed.

End UserStore.

(** X12.  [add_user] on an address that is already registered returns
    [False] and changes nothing, whatever the other arguments.  On a new
    address the user is registered with the given name, role (viewer when
    left out) and agency, no login yet, and the other users are untouched;
    this holds also when the file cannot be written, in which case the
    call returns [False] although the user is in the store.  A second
    [add_user] on the same address is refused. *)
Theorem X12_add_user (self : AuthManager) (email' name' : string) (role' agency' : option string)
    (now : string) (io : write_outcome) :
  let res := add_user email' name' role' agency' now io self in
  (is_Some (get_user email' self) →
     returned res = false ∧ manager_after res = self ∧ printed res = []) ∧
  (get_user email' self = None →
     get_user email' (manager_after res)
       = Some (mkUser email' name' (default "viewer" role') (default "" agency') now None) ∧
     (∀ other, other ≠ email' → get_user other (manager_after res) = get_user other self) ∧
     users_file (manager_after res) = users_file self ∧
     (returned res = true ↔ io = Written) ∧
     ∀ name'' role'' agency'' now' io',
       returned (add_user email' name'' role'' agency'' now' io' (manager_after res)) = false).
Proof.
  cbv zeta. unfold add_user, get_user. split.
  - intros Hin. rewrite bool_decide_eq_true_2 by by apply elem_of_dom. done.
  - intros Hnone. rewrite bool_decide_eq_false_2 by by apply not_elem_of_dom.
    destruct (save_keeps_manager io
                (mkAuthManager (users_file self)
                   (<[email' := User_init email' name' role' agency' now]> (users self))))
      as [-> Hret].
    cbn [users users_file]. split_and!.
    + by rewrite lookup_insert_eq.
    + intros other Hne. by rewrite lookup_insert_ne.
    + reflexivity.
    + exact Hret.
    + intros. rewrite bool_decide_eq_true_2; [reflexivity|].
      apply elem_of_dom. rewrite lookup_insert_eq. by eexists.
Qed.

(** X12 on the first manager: a new assessor is registered as a viewer even
    though the write fails. *)
Lemma X12_add_user_witness :
  get_user "lee@example.com"
    (manager_after (add_user "lee@example.com" "A. Lee" None None "2025-03-02T09:00:00"
                      (IOError "disk full") first_manager))
  = Some (mkUser "lee@example.com" "A. Lee" "viewer" "" "2025-03-02T09:00:00" None).
Proof.
  apply (proj2 (X12_add_user first_manager "lee@example.com" "A. Lee" None None
                  "2025-03-02T09:00:00" (IOError "disk full"))).
  reflexivity.
Defined.

(** X13.  [update_user] on an address that is not registered returns
    [False] and changes nothing.  On a registered user it overwrites the
    name, the role and the agency that are given and keeps those passed as
    [None]; the address, the creation time and the last login are never
    changed, no user is added or removed, and the other users are
    untouched.  The role is taken as given, whether or not the table knows
    it. *)
Theorem X13_update_user (self : AuthManager) (email' : string) (name' role' agency' : option string)
    (io : write_outcome) :
  let res := update_user email' name' role' agency' io self in
  (get_user email' self = None →
     returned res = false ∧ manager_after res = self ∧ printed res = []) ∧
  (∀ user, get_user email' self = Some user →
     get_user email' (manager_after res)
       = Some (mkUser (email user) (default (name user) name') (default (role user) role')
                 (default (agency user) agency') (created_at user) (last_login user)) ∧
     (returned res = true ↔ io = Written)) ∧
  (∀ other, other ≠ email' → get_user other (manager_after res) = get_user other self) ∧
  dom (users (manager_after res)) = dom (users self) ∧
  users_file (manager_after res) = users_file self ∧
  (name' = None → role' = None → agency' = None → users (manager_after res) = users self).
Proof.
  cbv zeta. unfold update_user, get_user.
  destruct (users self !! email') as [user|] eqn:Huser.
  - match goal with
    | |- context [_save_users io ?m] => destruct (save_keeps_manager io m) as [-> Hret]
    end.
    cbn [users users_file]. split_and!.
    + discriminate.
    + intros u [= <-]. split; [by rewrite lookup_insert_eq | exact Hret].
    + intros other Hne. by rewrite lookup_insert_ne.
    + rewrite dom_insert_L. apply subseteq_union_1_L, singleton_subseteq_l.
      apply elem_of_dom. by eexists.
    + reflexivity.
    + intros -> -> ->. cbn. apply insert_id. rewrite Huser. by destruct user.
  - cbn. split_and!; try done.
Qed.

(** X13 on the first manager: the default admin renamed keeps the role. *)
Lemma X13_update_user_witness :
  role <$> get_user "admin@example.com"
             (manager_after (update_user "admin@example.com" (Some "Root") None None Written
                               first_manager))
  = Some "admin".
Proof.
  rewrite (proj1 (proj1 (proj2 (X13_update_user first_manager "admin@example.com" (Some "Root")
                                  None None Written))
                    (mkUser "admin@example.com" "Default Admin" "admin" "System"
                       "2025-03-01T08:00:00" None) eq_refl)).
  reflexivity.
Defined.

(** X14.  [delete_user] on an address that is not registered returns
    [False] and changes nothing.  On a registered address the user is gone
    afterwards, with every permission, and the other users are untouched.
    Deleting a user that [add_user] has just registered gives the store
    back as it was. *)
Theorem X14_delete_user (self : AuthManager) (email' : string) (io : write_outcome) :
  let res := delete_user email' io self in
  (get_user email' self = None →
     returned res = false ∧ manager_after res = self ∧ printed res = []) ∧
  (is_Some (get_user email' self) → (returned res = true ↔ io = Written)) ∧
  get_user email' (manager_after res) = None ∧
  (∀ permission, user_has_permission email' permission (manager_after res) = false) ∧
  (∀ other, other ≠ email' → get_user other (manager_after res) = get_user other self) ∧
  users_file (manager_after res) = users_file self ∧
  (get_user email' self = None →
   ∀ name' role' agency' now io',
     users (manager_after
              (delete_user email' io
                 (manager_after (add_user email' name' role' agency' now io' self))))
       = users self).
Proof.
  cbv zeta.
  assert (Hdel : ∀ m,
            users (manager_after (delete_user email' io m)) = delete email' (users m) ∧
            users_file (manager_after (delete_user email' io m)) = users_file m).
  { intros m. unfold delete_user. case_bool_decide as Hin.
    - cbn. split; [|reflexivity]. symmetry. apply delete_id. by apply not_elem_of_dom.
    - by rewrite (proj1 (save_keeps_manager io _)). }
  assert (Hgone : get_user email' (manager_after (delete_user email' io self)) = None).
  { unfold get_user. rewrite (proj1 (Hdel self)). apply lookup_delete_eq. }
  split_and!.
  - unfold delete_user, get_user. intros Hnone.
    rewrite bool_decide_eq_true_2 by by apply not_elem_of_dom. done.
  - unfold delete_user, get_user. intros Hin.
    rewrite bool_decide_eq_false_2 by (intros Hn; by apply Hn, elem_of_dom).
    apply save_keeps_manager.
  - exact Hgone.
  - intros permission. unfold user_has_permission. by rewrite Hgone.
  - intros other Hne. unfold get_user. rewrite (proj1 (Hdel self)). by apply lookup_delete_ne.
  - apply Hdel.
  - intros Hnone name' role' agency' now io'. rewrite (proj1 (Hdel _)).
    unfold add_user. rewrite bool_decide_eq_false_2 by by apply not_elem_of_dom.
    rewrite (proj1 (save_keeps_manager io' _)). cbn [users].
    rewrite delete_insert_eq. apply delete_id. exact Hnone.
Qed.

(** X14 on the first manager: the user added and deleted again leaves the
    store with the default admin alone. *)
Lemma X14_delete_user_witness :
  users (manager_after
           (delete_user "lee@example.com" Written
              (manager_after (add_user "lee@example.com" "A. Lee" (Some "assessor") None
                                "2025-03-02T09:00:00" Written first_manager))))
  = users first_manager.
Proof.
  apply (proj2 (proj2 (proj2 (proj2 (proj2 (proj2
           (X14_delete_user first_manager "lee@example.com" Written))))))).
  reflexivity.
Defined.

(** X15.  [authenticate_user] on an address that is not registered returns
    [None] and changes nothing.  On a registered user it returns the user
    with the time of the call as last login, stores that, and changes
    nothing else of the user or of the others; it does so whether or not
    the file can be written. *)
Theorem X15_authenticate_user (self : AuthManager) (email' now : string) (io : write_outcome) :
  let res := authenticate_user email' now io self in
  (get_user email' self = None →
     returned res = None ∧ manager_after res = self ∧ printed res = []) ∧
  (∀ user, get_user email' self = Some user →
     returned res
       = Some (mkUser (email user) (name user) (role user) (agency user) (created_at user)
                 (Some now)) ∧
     get_user email' (manager_after res) = returned res ∧
     ∀ permission,
       user_has_permission email' permission (manager_after res)
         = user_has_permission email' permission self) ∧
  (∀ other, other ≠ email' → get_user other (manager_after res) = get_user other self) ∧
  dom (users (manager_after res)) = dom (users self).
Proof.
  cbv zeta. unfold authenticate_user, user_has_permission, get_user.
  destruct (users self !! email') as [user|] eqn:Huser.
  - match goal with
    | |- context [_save_users io ?m] =>
        pose proof (proj1 (save_keeps_manager io m)) as Hm
    end.
    cbn [manager_after returned printed] in *. rewrite Hm. cbn [users]. split_and!.
    + discriminate.
    + intros u [= <-]. split_and!; [reflexivity | by rewrite lookup_insert_eq |].
      intros permission. rewrite lookup_insert_eq. reflexivity.
    + intros other Hne. by rewrite lookup_insert_ne.
    + rewrite dom_insert_L. apply subseteq_union_1_L, singleton_subseteq_l.
      apply elem_of_dom. by eexists.
  - cbn. split_and!; try done.
Qed.

(** X15 on the first manager: the default admin logs in. *)
Lemma X15_authenticate_user_witness :
  last_login <$> returned (authenticate_user "admin@example.com" "2025-03-02T09:00:00" Written
                             first_manager)
  = Some (Some "2025-03-02T09:00:00").
Proof.
  rewrite (proj1 (proj1 (proj2 (X15_authenticate_user first_manager "admin@example.com"
                                  "2025-03-02T09:00:00" Written))
                    (mkUser "admin@example.com" "Default Admin" "admin" "System"
                       "2025-03-01T08:00:00" None) eq_refl)).
  reflexivity.
Defined.

(** X16.  [user_has_permission] is true exactly when the address is
    registered and the token is in the list of the user's role: it is false
    for an address that is not registered and for a user whose role the
    table does not know.  A user added without a role has the permissions
    of a viewer and no other. *)
Theorem X16_user_has_permission (self : AuthManager) (email' permission : string) :
  (user_has_permission email' permission self = true ↔
   ∃ user perms,
     get_user email' self = Some user ∧ ROLE_PERMISSIONS !! role user = Some perms ∧
     permission ∈ perms) ∧
  (get_user email' self = None → user_has_permission email' permission self = false) ∧
  (∀ user, get_user email' self = Some user →
     role user ∉ ["admin"; "reviewer"; "assessor"; "viewer"] →
     user_has_permission email' permission self = false) ∧
  (get_user email' self = None →
   ∀ name' agency' now io,
     user_has_permission email' permission
       (manager_after (add_user email' name' None agency' now io self)) = true
     ↔ permission ∈ [Permissions.VIEW_DASHBOARD; Permissions.VIEW_REGISTER;
                     Permissions.VIEW_AIA; Permissions.EXPORT_AIA]).
Proof.
  split_and!.
  - apply user_has_permission_lookup.
  - unfold user_has_permission. by intros ->.
  - unfold user_has_permission. intros user -> Hrole.
    rewrite has_permission_lookup, ROLE_PERMISSIONS_lookup.
    apply bool_decide_eq_false_2.
    repeat case_decide;
      try (exfalso; apply Hrole;
           match goal with Hr : role user = _ |- _ => rewrite Hr end;
           apply list_elem_of_In; cbn; tauto).
    change (permission ∉ []). apply not_elem_of_nil.
  - intros Hnone name' agency' now io. unfold user_has_permission, add_user, get_user in *.
    rewrite bool_decide_eq_false_2 by by apply not_elem_of_dom.
    rewrite (proj1 (save_keeps_manager io _)). cbn [users].
    rewrite lookup_insert_eq, has_permission_lookup, ROLE_PERMISSIONS_lookup.
    cbn. apply bool_decide_eq_true.
Qed.

(** X16 on the first manager: a user added without a role may view an
    assessment. *)
Lemma X16_user_has_permission_witness :
  user_has_permission "lee@example.com" Permissions.VIEW_AIA
    (manager_after (add_user "lee@example.com" "A. Lee" None None "2025-03-02T09:00:00" Written
                      first_manager)) = true.
Proof.
  apply (proj2 (proj2 (proj2 (X16_user_has_permission first_manager "lee@example.com"
                                Permissions.VIEW_AIA)))
           eq_refl "A. Lee" None "2025-03-02T09:00:00" Written).
  apply list_elem_of_In. cbn. tauto.
Defined.

(** X17.  An [AuthManager] that finds no user when it starts creates the
    default admin, who has each of the ten permissions, and says so; one
    that finds users keeps exactly those and prints nothing.  Either way
    the store is not empty once the manager is constructed. *)
Theorem X17_first_start (users_file' : option string) (loaded : gmap string User)
    (now : string) (io : write_outcome) :
  let res := AuthManager_init users_file' loaded now io in
  (loaded = ∅ →
     users (manager_after res)
       = {["admin@example.com" :=
             mkUser "admin@example.com" "Default Admin" "admin" "System" now None]} ∧
     Forall (λ token, user_has_permission "admin@example.com" token (manager_after res) = true)
       Permissions.tokens ∧
     last (printed res) = Some "Created default admin user: admin@example.com") ∧
  (loaded ≠ ∅ → users (manager_after res) = loaded ∧ printed res = []) ∧
  users (manager_after res) ≠ ∅ ∧
  users_file (manager_after res) = default "users.json" users_file'.
Proof.
  cbv zeta. unfold AuthManager_init. cbn [users].
  case_bool_decide as Hsize.
  - apply map_size_empty_iff in Hsize. subst loaded.
    unfold _create_default_admin. rewrite (proj1 (save_keeps_manager io _)).
    cbn [manager_after printed users users_file User_init email default from_option id].
    split_and!.
    + intros _. split_and!.
      * by rewrite insert_empty.
      * unfold user_has_permission, get_user. cbn [users]. rewrite lookup_insert_eq.
        unfold Permissions.tokens.
        repeat (apply Forall_cons; split;
                [rewrite has_permission_lookup, ROLE_PERMISSIONS_lookup; vm_compute; reflexivity|]).
        apply Forall_nil. done.
      * apply last_snoc.
    + intros Hne. by destruct Hne.
    + apply insert_non_empty.
    + reflexivity.
  - assert (Hne : loaded ≠ ∅) by (intros ->; apply Hsize, map_size_empty).
    cbn. split_and!; try done.
Qed.

(** X17 on the first manager: the default admin may manage users. *)
Lemma X17_first_start_witness :
  user_has_permission "admin@example.com" Permissions.MANAGE_USERS first_manager = true.
Proof.
  pose proof (proj1 (proj2 (proj1 (X17_first_start None ∅ "2025-03-01T08:00:00" Written)
                             eq_refl))) as Hall.
  apply (proj1 (Forall_forall _ _) Hall). apply list_elem_of_In. cbn. tauto.
Defined.

(** X18.  Every user is stored under its own address: the default admin of
    a first start is, and [add_user], [update_user], [delete_user] and
    [authenticate_user] keep it so; hence [get_user] returns a user with
    the address that was asked for. *)
Theorem X18_users_keyed (self : AuthManager) (Hkeyed : users_keyed self) :
  (∀ email' user, get_user email' self = Some user → email user = email') ∧
  (∀ email' name' role' agency' now io,
     users_keyed (manager_after (add_user email' name' role' agency' now io self))) ∧
  (∀ email' name' role' agency' io,
     users_keyed (manager_after (update_user email' name' role' agency' io self))) ∧
  (∀ email' io, users_keyed (manager_after (delete_user email' io self))) ∧
  (∀ email' now io, users_keyed (manager_after (authenticate_user email' now io self))) ∧
  (∀ users_file' now io, users_keyed (manager_after (AuthManager_init users_file' ∅ now io))) ∧
  (∀ users_file' now io,
     users_keyed (manager_after (AuthManager_init users_file' (users self) now io))).
Proof.
  assert (Hins : ∀ f key user,
            email user = key → users_keyed (mkAuthManager f (<[key := user]> (users self)))).
  { intros f key user Hk k u. cbn [users]. rewrite lookup_insert.
    case_decide; [intros [= <-]; by subst | apply Hkeyed]. }
  split_and!.
  - exact Hkeyed.
  - intros. unfold add_user. case_bool_decide; [exact Hkeyed|].
    rewrite (proj1 (save_keeps_manager io _)). by apply Hins.
  - intros. unfold update_user. destruct (users self !! email') as [user|] eqn:Hu;
      [|exact Hkeyed].
    rewrite (proj1 (save_keeps_manager io _)). apply Hins. cbn. by apply Hkeyed.
  - intros. unfold delete_user. case_bool_decide; [exact Hkeyed|].
    rewrite (proj1 (save_keeps_manager io _)). intros k u. cbn [users].
    intros Hk. apply lookup_delete_Some in Hk as [_ Hk]. by apply Hkeyed.
  - intros. unfold authenticate_user, get_user.
    destruct (users self !! email') as [user|] eqn:Hu; [|exact Hkeyed].
    cbn [manager_after]. rewrite (proj1 (save_keeps_manager io _)). apply Hins. cbn.
    by apply Hkeyed.
  - intros. unfold AuthManager_init. cbn [users]. rewrite map_size_empty.
    rewrite bool_decide_eq_true_2 by reflexivity.
    unfold _create_default_admin. rewrite (proj1 (save_keeps_manager io _)).
    intros k u. cbn [manager_after users]. rewrite lookup_insert, lookup_empty.
    case_decide; [intros [= <-]; by subst | discriminate].
  - intros. unfold AuthManager_init. cbn [users]. case_bool_decide as Hsize; [|exact Hkeyed].
    unfold _create_default_admin. rewrite (proj1 (save_keeps_manager io _)).
    cbn [manager_after users users_file]. by apply Hins.
Qed.

Lemma first_manager_keyed : users_keyed first_manager.
Proof.
  intros key user. unfold first_manager, AuthManager_init. cbn [users].
  rewrite map_size_empty, bool_decide_eq_true_2 by reflexivity.
  unfold _create_default_admin. cbn [manager_after _save_users users].
  rewrite lookup_insert, lookup_empty.
  case_decide; [intros [= <-]; by subst | discriminate].
Qed.

(** X18 on the first manager, whose one user is keyed by its address. *)
Lemma X18_users_keyed_witness :
  users_keyed
    (manager_after (add_user "lee@example.com" "A. Lee" None None "2025-03-02T09:00:00" Written
                      first_manager)).
Proof. apply (proj1 (proj2 (X18_users_keyed first_manager first_manager_keyed))). Defined.

(** X19.  The role table is nested: what a viewer may do, an assessor and a
    reviewer may do, and what either of these may do, an admin may do.
    Managing users and deleting a system are for the admin alone, approving
    and changing a status for admin and reviewer, adding a system for admin
    and assessor. *)
Theorem X19_roles_nested (u v : User) (permission : string) :
  (role u = "viewer" → role v ∈ ["assessor"; "reviewer"; "admin"] →
   has_permission u permission = true → has_permission v permission = true) ∧
  (role u ∈ ["assessor"; "reviewer"] → role v = "admin" →
   has_permission u permission = true → has_permission v permission = true) ∧
  (has_permission u Permissions.MANAGE_USERS = true ↔ role u = "admin") ∧
  (has_permission u Permissions.DELETE_SYSTEM = true ↔ role u = "admin") ∧
  (has_permission u Permissions.APPROVE_AIA = true ↔ role u ∈ ["admin"; "reviewer"]) ∧
  (has_permission u Permissions.CHANGE_STATUS = true ↔ role u ∈ ["admin"; "reviewer"]) ∧
  (has_permission u Permissions.ADD_SYSTEM = true ↔ role u ∈ ["admin"; "assessor"]) ∧
  (has_permission u Permissions.EDIT_AIA = true ↔ role u ∈ ["admin"; "reviewer"; "assessor"]).
Proof.
  rewrite !has_permission_lookup, !ROLE_PERMISSIONS_lookup.
  split_and!.
  - intros Hu Hv. apply list_elem_of_In in Hv. cbn in Hv.
    repeat match goal with
           | |- context [decide (role ?x = ?r)] => destruct (decide (role x = r))
           end; try (exfalso; intuition congruence);
      rewrite !bool_decide_eq_true; intros Hp;
      apply list_elem_of_In in Hp; apply list_elem_of_In; cbn in *; tauto.
  - intros Hu Hv. apply list_elem_of_In in Hu. cbn in Hu.
    repeat match goal with
           | |- context [decide (role ?x = ?r)] => destruct (decide (role x = r))
           end; try (exfalso; intuition congruence);
      rewrite !bool_decide_eq_true; intros Hp;
      apply list_elem_of_In in Hp; apply list_elem_of_In; cbn in *; tauto.
  - repeat match goal with
           | |- context [decide (role ?x = ?r)] => destruct (decide (role x = r))
           end; (split; intros Hp);
      try (vm_compute in Hp; discriminate Hp); try (vm_compute; reflexivity);
      try assumption; congruence.
  - repeat match goal with
           | |- context [decide (role ?x = ?r)] => destruct (decide (role x = r))
           end; (split; intros Hp);
      try (vm_compute in Hp; discriminate Hp); try (vm_compute; reflexivity);
      try assumption; congruence.
  - repeat match goal with
           | |- context [decide (role ?x = ?r)] => destruct (decide (role x = r))
           end; (split; intros Hp);
      try (vm_compute in Hp; discriminate Hp); try (vm_compute; reflexivity);
      try (apply list_elem_of_In; cbn; intuition congruence);
      exfalso; apply list_elem_of_In in Hp; cbn in Hp; intuition congruence.
  - repeat match goal with
           | |- context [decide (role ?x = ?r)] => destruct (decide (role x = r))
           end; (split; intros Hp);
      try (vm_compute in Hp; discriminate Hp); try (vm_compute; reflexivity);
      try (apply list_elem_of_In; cbn; intuition congruence);
      exfalso; apply list_elem_of_In in Hp; cbn in Hp; intuition congruence.
  - repeat match goal with
           | |- context [decide (role ?x = ?r)] => destruct (decide (role x = r))
           end; (split; intros Hp);
      try (vm_compute in Hp; discriminate Hp); try (vm_compute; reflexivity);
      try (apply list_elem_of_In; cbn; intuition congruence);
      exfalso; apply list_elem_of_In in Hp; cbn in Hp; intuition congruence.
  - repeat match goal with
           | |- context [decide (role ?x = ?r)] => destruct (decide (role x = r))
           end; (split; intros Hp);
      try (vm_compute in Hp; discriminate Hp); try (vm_compute; reflexivity);
      try (apply list_elem_of_In; cbn; intuition congruence);
      exfalso; apply list_elem_of_In in Hp; cbn in Hp; intuition congruence.
Qed.

(** X19 on two users: what the viewer may export, the reviewer may. *)
Lemma X19_roles_nested_witness :
  has_permission (mkUser "r@example.com" "R" "reviewer" "" "2025-01-01" None)
    Permissions.EXPORT_AIA = true.
Proof.
  apply (proj1 (X19_roles_nested (mkUser "v@example.com" "V" "viewer" "" "2025-01-01" None)
                  (mkUser "r@example.com" "R" "reviewer" "" "2025-01-01" None)
                  Permissions.EXPORT_AIA)).
  - reflexivity.
  - apply list_elem_of_In. cbn. tauto.
  - reflexivity.
Defined.

(** ** Saving an object *)

(** X20.  [update_aia] refuses an object whose [system_id] is [None] or 0
    with a [ValueError], before it touches the object or prints anything.
    Otherwise it recomputes the derived attributes first, so that the
    columns of the statement it sends are those of the object it
    serialises, whatever stood in [total_score] and [risk_category]
    before: the total is the sum over the dimensions, the category its
    classification, the time the time of the call, and the object in memory
    is the one serialised. *)
Theorem X20_update_aia (self : AIA) (now : string) (total_changes : Z) :
  let res := update_aia now total_changes self in
  (system_id self = None ∨ system_id self = Some 0 →
     (∃ msg, outcome res = inl (ValueError msg)) ∧ self_after res = self ∧ stdout res = []) ∧
  (∀ id, system_id self = Some id → id ≠ 0 →
     ∃ row,
       outcome res = inr row ∧
       row_aia_data row = self_after res ∧
       row_system_id row = id ∧
       row_total_score row = computeTotal (dimensions self) ∧
       row_risk_category row = category (classifyRisk (computeTotal (dimensions self))) ∧
       row_total_score row = total_score (row_aia_data row) ∧
       row_risk_category row = category (risk_category (row_aia_data row)) ∧
       row_system_name row = system_name self ∧
       row_agency_name row = agency_name self ∧
       row_aia_status row = aia_status self ∧
       row_last_modified_date row = now ∧
       last_modified_date (self_after res) = now ∧
       same_except [A_total_score; A_risk_category; A_last_modified_date] self (self_after res)).
Proof.
  cbv zeta. unfold update_aia. split.
  - intros Hcase. run;
      repeat match goal with
             | H : bool_decide _ = true |- _ => apply bool_decide_eq_true in H
             | H : bool_decide _ = false |- _ => apply bool_decide_eq_false in H
             end;
      try (split_and!; [by eexists | reflexivity | reflexivity]);
      exfalso; destruct Hcase as [Hc|Hc]; congruence.
  - intros id Hid Hne. run;
      repeat match goal with
             | H : bool_decide _ = true |- _ => apply bool_decide_eq_true in H
             | H : bool_decide _ = false |- _ => apply bool_decide_eq_false in H
             end;
      try (exfalso; congruence);
      (eexists; split; [reflexivity|]); cbn;
      split_and!; try reflexivity; try congruence; frame.
Qed.

(** X20 on a record loaded as system 7 whose total was overwritten with 60:
    the statement carries the total 12 of its scores. *)
Lemma X20_update_aia_witness :
  ∃ row,
    outcome (update_aia "2025-03-05T09:00:00" 1 drifted_record) = inr row ∧
    row_total_score row = 12 ∧ row_risk_category row = "Medium".
Proof.
  destruct (proj2 (X20_update_aia drifted_record "2025-03-05T09:00:00" 1) 7 eq_refl
              ltac:(discriminate))
    as (row & Hrow & _ & _ & Htotal & Hcat & _).
  exists row. split_and!; [exact Hrow | rewrite Htotal | rewrite Hcat]; vm_compute; reflexivity.
Defined.
